(** * vintasend-sendgrid: the notification-to-email translation of
      [SendgridNotificationAdapter]

    A shallow embedding of [src/sendgrid-notification-adapter.ts].  The
    adapter is an asynchronous method that talks to four collaborators (the
    template renderer, the notification backend, the attachment file handles
    and the SendGrid mail client).  Collaborators are modelled as functions
    returning the outcome of the promise they hand back; [send] runs in a
    small monad that records, in order, every collaborator call it makes and
    stops at the first rejection. *)

From Stdlib Require Import Strings.String Strings.Ascii Strings.Byte.
From Stdlib Require Import Lists.List NArith ZArith Bool Arith Lia.
From Stdlib Require DecimalString.
Import ListNotations.
Open Scope string_scope.
Open Scope list_scope.

(** ** [Buffer.prototype.toString('base64')]

    Node's built-in encoder: RFC 4648 section 4, standard alphabet, padded
    with [=]. *)
Module Base64.

Definition alphabet : string :=
  "ABCDEFGHIJKLMNOPQRSTUVWXYZabcdefghijklmnopqrstuvwxyz0123456789+/".

(** The character for the low six bits of [n]. *)
Definition sextet (n : N) : ascii :=
  match String.get (N.to_nat (N.land n 63)) alphabet with
  | Some c => c
  | None => "="%char
  end.

(** Three octets packed big-endian into 24 bits. *)
Definition pack (a b c : byte) : N :=
  N.lor (N.shiftl (Byte.to_N a) 16)
        (N.lor (N.shiftl (Byte.to_N b) 8) (Byte.to_N c)).

Fixpoint encode (bs : list byte) : string :=
  match bs with
  | [] => ""
  | [a] =>
      let n := pack a x00 x00 in
      String (sextet (N.shiftr n 18)) (String (sextet (N.shiftr n 12)) "==")
  | [a; b] =>
      let n := pack a b x00 in
      String (sextet (N.shiftr n 18))
        (String (sextet (N.shiftr n 12))
          (String (sextet (N.shiftr n 6)) "="))
  | a :: b :: c :: rest =>
      let n := pack a b c in
      String (sextet (N.shiftr n 18))
        (String (sextet (N.shiftr n 12))
          (String (sextet (N.shiftr n 6))
            (String (sextet n) (encode rest))))
  end.

End Base64.

(** ** Promises *)

(** A JavaScript [Error], identified by its message. *)
Definition Error := string.

(** How a promise settles. *)
Inductive Outcome (A : Type) : Type :=
| Fulfilled (value : A)
| Rejected (reason : Error).
Arguments Fulfilled {A} value.
Arguments Rejected {A} reason.

(** A promise that has been issued: when it settles and how.  Only
    [Promise.all] looks at [settles_at]. *)
Record Pending (A : Type) : Type := mkPending {
  settles_at : nat;
  settles_to : Outcome A
}.
Arguments mkPending {A} _ _.
Arguments settles_at {A} _.
Arguments settles_to {A} _.

(** [promise.then(f)] for a synchronous [f]. *)
Definition pending_map {A B} (f : A -> B) (p : Pending A) : Pending B :=
  mkPending (settles_at p)
    match settles_to p with
    | Fulfilled a => Fulfilled (f a)
    | Rejected e => Rejected e
    end.

(** [Promise.all]: the values in input order when every promise is
    fulfilled, otherwise the reason of the rejection that happens first
    (the lowest index among rejections of the same instant). *)
Fixpoint promise_all_settle {A} (ps : list (Pending A))
  : (nat * Error) + list A :=
  match ps with
  | [] => inr []
  | p :: rest =>
      match settles_to p, promise_all_settle rest with
      | Fulfilled a, inr vs => inr (a :: vs)
      | Fulfilled _, inl r => inl r
      | Rejected e, inr _ => inl (settles_at p, e)
      | Rejected e, inl (t', e') =>
          if Nat.ltb t' (settles_at p)
          then inl (t', e')
          else inl (settles_at p, e)
      end
  end.

Definition promise_all {A} (ps : list (Pending A)) : Outcome (list A) :=
  match promise_all_settle ps with
  | inr vs => Fulfilled vs
  | inl (_, e) => Rejected e
  end.

(** ** Data model *)

#[local] Set Warnings "-register-all".

Inductive JsonValue : Type :=
| JNull
| JBool (b : bool)
| JNumber (z : Z)
| JString (s : string)
| JArray (items : list JsonValue)
| JObject (fields : list (string * JsonValue)).

Definition JsonObject : Type := list (string * JsonValue).

(** The value found under [notification.id].  The tests instantiate the
    identifier type with strings and clear the field with [undefined] and
    with [null]. *)
Inductive IdValue : Type :=
| IdUndefined
| IdNull
| IdString (s : string).

(** JavaScript truthiness, as tested by [!notification.id] and by
    [this.config.fromName ? ... : ...]. *)
Definition truthy_string (s : string) : bool := negb (String.eqb s "").

Definition truthy_id (v : IdValue) : bool :=
  match v with
  | IdString s => truthy_string s
  | IdUndefined | IdNull => false
  end.

(** A template literal [`${id}`]. *)
Definition id_to_string (v : IdValue) : string :=
  match v with
  | IdUndefined => "undefined"
  | IdNull => "null"
  | IdString s => s
  end.

(** [AttachmentFile]: only [read] is used by the adapter ([stream], [url]
    and [delete] are not). *)
Record AttachmentFile : Type := mkAttachmentFile {
  read : Pending (list byte)
}.

Record StoredAttachment : Type := mkStoredAttachment {
  att_id : string;
  fileId : string;
  filename : string;
  contentType : string;
  size : N;
  checksum : string;
  file : AttachmentFile
}.

(** [AnyDatabaseNotification]: an account notification carries [userId], a
    one-off notification carries [emailOrPhone]. *)
Record Notification : Type := mkNotification {
  id : IdValue;
  userId : option string;
  emailOrPhone : option string;
  firstName : option string;
  lastName : option string;
  contextName : string;
  contextParameters : JsonObject;
  title : option string;
  bodyTemplate : string;
  subjectTemplate : option string;
  attachments : option (list StoredAttachment)
}.

(** What the template renderer produces. *)
Record EmailTemplate : Type := mkEmailTemplate {
  subject : string;
  body : string
}.

Record SendgridConfig : Type := mkSendgridConfig {
  apiKey : string;
  fromEmail : string;
  fromName : option string
}.

(** SendGrid's [AttachmentData]. *)
Record AttachmentData : Type := mkAttachmentData {
  ad_filename : string;
  ad_content : string;
  ad_type : string;
  ad_disposition : string
}.

(** SendGrid's [EmailData]: a bare address or [{ email, name }]. *)
Inductive EmailData : Type :=
| EmailString (address : string)
| EmailObject (email name : string).

(** SendGrid's [MailDataRequired], with the fields the adapter sets.  An
    absent [attachments] key is [None]. *)
Record MailData : Type := mkMailData {
  md_to : string;
  md_from : EmailData;
  md_subject : string;
  md_html : string;
  md_attachments : option (list AttachmentData)
}.

(** ** Collaborators *)

Record TemplateRenderer : Type := mkTemplateRenderer {
  render : Notification -> JsonObject -> Outcome EmailTemplate
}.

(** The backend resolves [undefined] when it knows no address. *)
Record Backend : Type := mkBackend {
  getUserEmailFromNotification : IdValue -> Outcome (option string)
}.

(** The [sgMail] client. *)
Record MailService : Type := mkMailService {
  sgMail_send : MailData -> Outcome unit
}.

Record SendgridNotificationAdapter : Type := mkAdapter {
  key : option string;
  notificationType : string;
  enqueueNotifications : bool;
  templateRenderer : TemplateRenderer;
  backend : option Backend;
  config : SendgridConfig
}.

(** ** Call traces *)

Inductive Event : Type :=
| RenderCall (notification : Notification) (context : JsonObject)
| LookupCall (notificationId : IdValue)
| PrepareCall (atts : list StoredAttachment)
| ReadCall (att : StoredAttachment)
| MailCall (mailData : MailData).

(** An asynchronous computation: the calls it made, in order, and how it
    settled. *)
Definition Async (A : Type) : Type := (list Event * Outcome A)%type.

Definition ret {A} (a : A) : Async A := ([], Fulfilled a).

Definition throw {A} (e : Error) : Async A := ([], Rejected e).

Definition bind {A B} (m : Async A) (k : A -> Async B) : Async B :=
  match m with
  | (t, Fulfilled a) => let '(t', r) := k a in (t ++ t', r)
  | (t, Rejected e) => (t, Rejected e)
  end.

(** [await collaborator.call(...)]. *)
Definition await {A} (ev : Event) (o : Outcome A) : Async A := ([ev], o).

Notation "x <- m ;; k" := (bind m (fun x => k))
  (at level 61, m at next level, right associativity).

Definition trace {A} (m : Async A) : list Event := fst m.
Definition outcome {A} (m : Async A) : Outcome A := snd m.

(** The payloads handed to [sgMail.send]. *)
Fixpoint mail_calls (t : list Event) : list MailData :=
  match t with
  | [] => []
  | MailCall m :: t' => m :: mail_calls t'
  | _ :: t' => mail_calls t'
  end.

(** ** The adapter *)

(** [new SendgridNotificationAdapterFactory().create(...)]; the base class
    starts without a backend. *)
Definition create (templateRenderer : TemplateRenderer)
    (enqueueNotifications : bool) (config : SendgridConfig)
  : SendgridNotificationAdapter :=
  mkAdapter (Some "sendgrid") "EMAIL" enqueueNotifications
            templateRenderer None config.

(** Modelled from the spec: [injectBackend] of the base adapter class
    (package [vintasend]), the late-bound setter of the backend
    collaborator. *)
Definition injectBackend (this : SendgridNotificationAdapter) (b : Backend)
  : SendgridNotificationAdapter :=
  mkAdapter (key this) (notificationType this) (enqueueNotifications this)
            (templateRenderer this) (Some b) (config this).

Definition supportsAttachments (this : SendgridNotificationAdapter) : bool :=
  true.

(** Modelled from the spec: [getRecipientEmail] of the base adapter class
    (package [vintasend]), the recipient resolver of section 4.1.  A
    notification carrying [emailOrPhone] is answered directly; otherwise the
    injected backend is queried with the notification's id, and a lookup
    that yields no value fails with the message the tests expect.  The
    backend is an argument here: [send] calls the resolver after it has
    checked [this.backend]. *)
Definition getRecipientEmail (b : Backend) (notification : Notification)
  : Async string :=
  match emailOrPhone notification with
  | Some address => ret address
  | None =>
      userEmail <- await (LookupCall (id notification))
                     (getUserEmailFromNotification b (id notification)) ;;
      match userEmail with
      | Some address => ret address
      | None =>
          throw ("User email not found for notification "
                   ++ id_to_string (id notification))%string
      end
  end.

(** The body of the [async (att) => ...] callback once [att.file.read()]
    has produced [content]. *)
Definition attachment_data (att : StoredAttachment) (content : list byte)
  : AttachmentData :=
  {| ad_filename := filename att;
     ad_content := Base64.encode content;
     ad_type := contentType att;
     ad_disposition := "attachment" |}.

(** [attachments.map(async (att) => ...)] calls every [read] at once, in
    input order; [Promise.all] then waits for all of them. *)
Definition prepareAttachments (atts : list StoredAttachment)
  : Async (list AttachmentData) :=
  (PrepareCall atts :: map ReadCall atts,
   promise_all
     (map (fun att => pending_map (attachment_data att) (read (file att)))
          atts)).

(** [this.config.fromName ? { email, name } : this.config.fromEmail]. *)
Definition sender (config : SendgridConfig) : EmailData :=
  match fromName config with
  | Some name =>
      if truthy_string name
      then EmailObject (fromEmail config) name
      else EmailString (fromEmail config)
  | None => EmailString (fromEmail config)
  end.

Definition with_attachments (m : MailData) (a : list AttachmentData)
  : MailData :=
  {| md_to := md_to m; md_from := md_from m; md_subject := md_subject m;
     md_html := md_html m; md_attachments := Some a |}.

Definition send (sgMail : MailService) (this : SendgridNotificationAdapter)
    (notification : Notification) (context : JsonObject) : Async unit :=
  match backend this with
  | None => throw "Backend not injected"
  | Some b =>
      template <- await (RenderCall notification context)
                    (render (templateRenderer this) notification context) ;;
      if negb (truthy_id (id notification))
      then throw "Notification ID is required"
      else
        recipientEmail <- getRecipientEmail b notification ;;
        let mailData :=
          {| md_to := recipientEmail;
             md_from := sender (config this);
             md_subject := subject template;
             md_html := body template;
             md_attachments := None |} in
        mailData <-
          match attachments notification with
          | Some atts =>
              if Nat.ltb 0 (List.length atts)
              then prepared <- prepareAttachments atts ;;
                   ret (with_attachments mailData prepared)
              else ret mailData
          | None => ret mailData
          end ;;
        await (MailCall mailData) (sgMail_send sgMail mailData)
  end.

(** ** Relational view of the adapter *)

(** What the translator emits for one attachment. *)
Definition translated (att : StoredAttachment) (d : AttachmentData) : Prop :=
  exists content,
    settles_to (read (file att)) = Fulfilled content
    /\ d = {| ad_filename := filename att;
              ad_content := Base64.encode content;
              ad_type := contentType att;
              ad_disposition := "attachment" |}.

(** The payload before attachments are added: the [mailData] literal of
    [send]. *)
Definition plain_mail (this : SendgridNotificationAdapter)
    (template : EmailTemplate) (recipientEmail : string) : MailData :=
  {| md_to := recipientEmail;
     md_from := sender (config this);
     md_subject := subject template;
     md_html := body template;
     md_attachments := None |}.

(** The runs of [send]: every way a call can go, read off the method's
    control flow, one constructor per exit. *)
Inductive send_run (sgMail : MailService) (this : SendgridNotificationAdapter)
    (n : Notification) (ctx : JsonObject) : Async unit -> Prop :=
| run_no_backend :
    backend this = None ->
    send_run sgMail this n ctx ([], Rejected "Backend not injected")
| run_render_rejected b e :
    backend this = Some b ->
    render (templateRenderer this) n ctx = Rejected e ->
    send_run sgMail this n ctx ([RenderCall n ctx], Rejected e)
| run_id_required b template :
    backend this = Some b ->
    render (templateRenderer this) n ctx = Fulfilled template ->
    truthy_id (id n) = false ->
    send_run sgMail this n ctx
      ([RenderCall n ctx], Rejected "Notification ID is required")
| run_recipient_rejected b template t e :
    backend this = Some b ->
    render (templateRenderer this) n ctx = Fulfilled template ->
    truthy_id (id n) = true ->
    getRecipientEmail b n = (t, Rejected e) ->
    send_run sgMail this n ctx (RenderCall n ctx :: t, Rejected e)
| run_prepare_rejected b template t address atts e :
    backend this = Some b ->
    render (templateRenderer this) n ctx = Fulfilled template ->
    truthy_id (id n) = true ->
    getRecipientEmail b n = (t, Fulfilled address) ->
    attachments n = Some atts -> atts <> [] ->
    outcome (prepareAttachments atts) = Rejected e ->
    send_run sgMail this n ctx
      (RenderCall n ctx :: t ++ PrepareCall atts :: map ReadCall atts,
       Rejected e)
| run_mail_plain b template t address :
    backend this = Some b ->
    render (templateRenderer this) n ctx = Fulfilled template ->
    truthy_id (id n) = true ->
    getRecipientEmail b n = (t, Fulfilled address) ->
    attachments n = None \/ attachments n = Some [] ->
    send_run sgMail this n ctx
      (RenderCall n ctx :: t ++ [MailCall (plain_mail this template address)],
       sgMail_send sgMail (plain_mail this template address))
| run_mail_attachments b template t address atts prepared :
    backend this = Some b ->
    render (templateRenderer this) n ctx = Fulfilled template ->
    truthy_id (id n) = true ->
    getRecipientEmail b n = (t, Fulfilled address) ->
    attachments n = Some atts -> atts <> [] ->
    outcome (prepareAttachments atts) = Fulfilled prepared ->
    send_run sgMail this n ctx
      (RenderCall n ctx :: t ++ PrepareCall atts :: map ReadCall atts
         ++ [MailCall (with_attachments (plain_mail this template address)
                         prepared)],
       sgMail_send sgMail
         (with_attachments (plain_mail this template address) prepared)).

(** ** Further observers *)

(** The attachments whose [file.read()] was called, in call order. *)
Fixpoint reads_of (t : list Event) : list StoredAttachment :=
  match t with
  | [] => []
  | ReadCall att :: t' => att :: reads_of t'
  | _ :: t' => reads_of t'
  end.

(** The address part of a [from] field. *)
Definition email_of (d : EmailData) : string :=
  match d with
  | EmailString address => address
  | EmailObject email _ => email
  end.

(** ** Base64 text *)
Module Base64Text.

(** A character of the base64 alphabet, or the padding character. *)
Definition is_base64_char (c : ascii) : bool :=
  existsb (Ascii.eqb c) (list_ascii_of_string (Base64.alphabet ++ "=")).

(** The six-bit groups of a 24-bit word, most significant first. *)
Definition group (k : N) (n : N) : N := N.land (N.shiftr n (18 - 6 * k)) 63.

(** The three octets rebuilt from four six-bit groups. *)
Definition octet0 (q0 q1 : N) : N := N.lor (N.shiftl q0 2) (N.shiftr q1 4).
Definition octet1 (q1 q2 : N) : N :=
  N.lor (N.shiftl (N.land q1 15) 4) (N.shiftr q2 2).
Definition octet2 (q2 q3 : N) : N := N.lor (N.shiftl (N.land q2 3) 6) q3.

Definition byte_of (n : N) : byte :=
  match Byte.of_N n with
  | Some b => b
  | None => x00
  end.

(** The position of a character in the alphabet. *)
Fixpoint index_in (c : ascii) (s : string) (i : N) : option N :=
  match s with
  | EmptyString => None
  | String d s' => if Ascii.eqb c d then Some i else index_in c s' (N.succ i)
  end.

Definition index (c : ascii) : option N := index_in c Base64.alphabet 0.

(** A decoder for padded base64 text, the inverse the mail provider
    applies to [content]. *)
Fixpoint decode (s : string) : option (list byte) :=
  match s with
  | EmptyString => Some []
  | String c0 (String c1 (String c2 (String c3 rest))) =>
      match index c0, index c1 with
      | Some q0, Some q1 =>
          match index c2 with
          | Some q2 =>
              match index c3 with
              | Some q3 =>
                  match decode rest with
                  | Some tl =>
                      Some (byte_of (octet0 q0 q1)
                              :: byte_of (octet1 q1 q2)
                              :: byte_of (octet2 q2 q3) :: tl)
                  | None => None
                  end
              | None =>
                  match rest with
                  | EmptyString =>
                      if Ascii.eqb c3 "="
                      then Some [byte_of (octet0 q0 q1);
                                 byte_of (octet1 q1 q2)]
                      else None
                  | _ => None
                  end
              end
          | None =>
              match rest with
              | EmptyString =>
                  if (Ascii.eqb c2 "=" && Ascii.eqb c3 "=")%bool
                  then Some [byte_of (octet0 q0 q1)]
                  else None
              | _ => None
              end
          end
      | _, _ => None
      end
  | _ => None
  end.

(** Every octet. *)
Definition all_bytes : list byte :=
  map (fun k => byte_of (N.of_nat k)) (seq 0 256).

End Base64Text.

(** ** The logging revision of the adapter

    The second copy of the adapter in the repository adds diagnostic lines,
    written through [this.logger?.info(...)], to [send] and
    [prepareAttachments].  Its traces interleave the collaborator calls
    with the lines written.  An instant of [settles_at] is one turn of the
    event loop: promises of the same instant settle in input order, and
    everything they trigger runs before [send] itself settles. *)
Module Logged.

(** The logger of the base adapter class; only its [info] method is used,
    and each use is recorded as a [LogInfo] event. *)
Inductive Logger : Type := TheLogger.

Record LoggingAdapter : Type := mkLoggingAdapter {
  adapter_of : SendgridNotificationAdapter;
  logger : option Logger
}.

Inductive LoggedEvent : Type :=
| Call (e : Event)
| LogInfo (message : string).

Definition LAsync (A : Type) : Type := (list LoggedEvent * Outcome A)%type.

Definition lret {A} (a : A) : LAsync A := ([], Fulfilled a).

Definition lthrow {A} (e : Error) : LAsync A := ([], Rejected e).

Definition lbind {A B} (m : LAsync A) (k : A -> LAsync B) : LAsync B :=
  match m with
  | (t, Fulfilled a) => let '(t', r) := k a in (t ++ t', r)
  | (t, Rejected e) => (t, Rejected e)
  end.

Definition lawait {A} (ev : Event) (o : Outcome A) : LAsync A :=
  ([Call ev], o).

(** A computation of the base adapter class, which writes no line. *)
Definition lift {A} (m : Async A) : LAsync A := (map Call (fst m), snd m).

Notation "x <<- m ;; k" := (lbind m (fun x => k))
  (at level 61, m at next level, right associativity).

Definition ltrace {A} (m : LAsync A) : list LoggedEvent := fst m.
Definition loutcome {A} (m : LAsync A) : Outcome A := snd m.

(** [this.logger?.info(message)]: nothing happens without a logger. *)
Definition info (l : option Logger) (message : string) : list LoggedEvent :=
  match l with
  | Some _ => [LogInfo message]
  | None => []
  end.

(** A number inside a template literal. *)
Definition decimal (n : nat) : string :=
  DecimalString.NilEmpty.string_of_uint (Nat.to_uint n).

(** The collaborator calls of a trace, the lines dropped. *)
Fixpoint calls_of (t : list LoggedEvent) : list Event :=
  match t with
  | [] => []
  | Call e :: t' => e :: calls_of t'
  | LogInfo _ :: t' => calls_of t'
  end.

(** The lines of a trace, the calls dropped. *)
Fixpoint lines_of (t : list LoggedEvent) : list string :=
  match t with
  | [] => []
  | Call _ :: t' => lines_of t'
  | LogInfo message :: t' => message :: lines_of t'
  end.

(** The attachments in the order their reads settle: by instant, and by
    position within an instant. *)
Fixpoint insert_settled (x : StoredAttachment) (l : list StoredAttachment)
  : list StoredAttachment :=
  match l with
  | [] => [x]
  | y :: l' =>
      if Nat.leb (settles_at (read (file x))) (settles_at (read (file y)))
      then x :: l
      else y :: insert_settled x l'
  end.

Definition settle_order (atts : list StoredAttachment)
  : list StoredAttachment :=
  fold_right insert_settled [] atts.

Definition preparing_line (att : StoredAttachment) : string :=
  "Preparing attachment " ++ filename att ++ " for email".

Definition read_line (att : StoredAttachment) (content : list byte)
  : string :=
  "Attachment " ++ filename att ++ " read successfully, size: "
    ++ decimal (List.length content) ++ " bytes".

(** The part of the callback after [await att.file.read()]: it runs when
    the read is fulfilled, and only up to the instant [deadline] at which
    [Promise.all] rejects, if it does. *)
Definition completion (l : option Logger) (deadline : option nat)
    (att : StoredAttachment) : list LoggedEvent :=
  match settles_to (read (file att)) with
  | Fulfilled content =>
      match deadline with
      | Some t =>
          if Nat.leb (settles_at (read (file att))) t
          then info l (read_line att content)
          else []
      | None => info l (read_line att content)
      end
  | Rejected _ => []
  end.

Definition prepareAttachments (l : option Logger)
    (atts : list StoredAttachment) : LAsync (list AttachmentData) :=
  let promises :=
    map (fun att => pending_map (attachment_data att) (read (file att)))
        atts in
  let deadline :=
    match promise_all_settle promises with
    | inl (t, _) => Some t
    | inr _ => None
    end in
  (Call (PrepareCall atts)
     :: flat_map (fun att => info l (preparing_line att)
                               ++ [Call (ReadCall att)]) atts
     ++ flat_map (completion l deadline) (settle_order atts),
   promise_all promises).

Definition added_line (notification : Notification) (count : nat) : string :=
  "Added " ++ decimal count ++ " attachments to email for notification ID "
    ++ id_to_string (id notification).

Definition sent_line (notification : Notification) : string :=
  "Email sent for notification ID " ++ id_to_string (id notification).

Definition send (sgMail : MailService) (this : LoggingAdapter)
    (notification : Notification) (context : JsonObject) : LAsync unit :=
  match backend (adapter_of this) with
  | None => lthrow "Backend not injected"
  | Some b =>
      template <<- lawait (RenderCall notification context)
                     (render (templateRenderer (adapter_of this))
                        notification context) ;;
      if negb (truthy_id (id notification))
      then lthrow "Notification ID is required"
      else
        recipientEmail <<- lift (getRecipientEmail b notification) ;;
        let mailData :=
          {| md_to := recipientEmail;
             md_from := sender (config (adapter_of this));
             md_subject := subject template;
             md_html := body template;
             md_attachments := None |} in
        mailData <<-
          match attachments notification with
          | Some atts =>
              if Nat.ltb 0 (List.length atts)
              then prepared <<- prepareAttachments (logger this) atts ;;
                   (info (logger this)
                      (added_line notification (List.length atts)),
                    Fulfilled (with_attachments mailData prepared))
              else lret mailData
          | None => lret mailData
          end ;;
        _ <<- lawait (MailCall mailData) (sgMail_send sgMail mailData) ;;
        (info (logger this) (sent_line notification), Fulfilled tt)
  end.

End Logged.

(** ** Fixtures: the objects of the test suite and of the spec's scenarios *)
Module Fixtures.

Definition namedConfig : SendgridConfig :=
  mkSendgridConfig "SG.test-api-key" "noreply@example.com"
                   (Some "Example App").

Definition configWithoutName : SendgridConfig :=
  mkSendgridConfig "SG.test-api-key" "noreply@example.com" None.

Definition configEmptyName : SendgridConfig :=
  mkSendgridConfig "SG.test-api-key" "noreply@example.com" (Some "").

Definition renderedTemplate : EmailTemplate :=
  mkEmailTemplate "Test Subject" "<p>Test Body</p>".

Definition mockTemplateRenderer : TemplateRenderer :=
  mkTemplateRenderer (fun _ _ => Fulfilled renderedTemplate).

Definition failingTemplateRenderer : TemplateRenderer :=
  mkTemplateRenderer (fun _ _ => Rejected "Template not found").

Definition mockBackend : Backend :=
  mkBackend (fun _ => Fulfilled (Some "user@example.com")).

Definition emptyBackend : Backend :=
  mkBackend (fun _ => Fulfilled None).

Definition mockSend : MailService :=
  mkMailService (fun _ => Fulfilled tt).

Definition context : JsonObject := [("foo", JString "bar")].

Definition mockNotification : Notification :=
  {| id := IdString "123"; userId := Some "456"; emailOrPhone := None;
     firstName := None; lastName := None;
     contextName := "testContext"; contextParameters := [];
     title := Some "Test Notification";
     bodyTemplate := "/path/to/template";
     subjectTemplate := Some "/path/to/subject";
     attachments := None |}.

Definition mockOneOffNotification : Notification :=
  {| id := IdString "123"; userId := None;
     emailOrPhone := Some "oneoff@example.com";
     firstName := Some "John"; lastName := Some "Doe";
     contextName := "testContext"; contextParameters := [];
     title := Some "Test One-Off Notification";
     bodyTemplate := "/path/to/template";
     subjectTemplate := Some "Test Subject";
     attachments := None |}.

Definition with_id (v : IdValue) (n : Notification) : Notification :=
  {| id := v; userId := userId n; emailOrPhone := emailOrPhone n;
     firstName := firstName n; lastName := lastName n;
     contextName := contextName n;
     contextParameters := contextParameters n; title := title n;
     bodyTemplate := bodyTemplate n; subjectTemplate := subjectTemplate n;
     attachments := attachments n |}.

Definition with_files (a : option (list StoredAttachment))
    (n : Notification) : Notification :=
  {| id := id n; userId := userId n; emailOrPhone := emailOrPhone n;
     firstName := firstName n; lastName := lastName n;
     contextName := contextName n;
     contextParameters := contextParameters n; title := title n;
     bodyTemplate := bodyTemplate n; subjectTemplate := subjectTemplate n;
     attachments := a |}.

Definition fileBuffer1 : list byte := list_byte_of_string "file 1 content".
Definition fileBuffer2 : list byte := list_byte_of_string "file 2 content".

Definition attachment1 : StoredAttachment :=
  {| att_id := "att-1"; fileId := "file-1"; filename := "document.pdf";
     contentType := "application/pdf"; size := 14; checksum := "abc123";
     file := mkAttachmentFile (mkPending 2 (Fulfilled fileBuffer1)) |}.

Definition attachment2 : StoredAttachment :=
  {| att_id := "att-2"; fileId := "file-2"; filename := "image.png";
     contentType := "image/png"; size := 14; checksum := "def456";
     file := mkAttachmentFile (mkPending 1 (Fulfilled fileBuffer2)) |}.

(** A file whose storage backend fails. *)
Definition brokenAttachment : StoredAttachment :=
  {| att_id := "att-3"; fileId := "file-3"; filename := "lost.bin";
     contentType := "application/octet-stream"; size := 0;
     checksum := "000000";
     file := mkAttachmentFile (mkPending 1 (Rejected "ENOENT")) |}.

Definition adapter : SendgridNotificationAdapter :=
  injectBackend (create mockTemplateRenderer false namedConfig) mockBackend.

Definition adapterWithoutBackend : SendgridNotificationAdapter :=
  create mockTemplateRenderer false namedConfig.

Definition adapterFailingRender : SendgridNotificationAdapter :=
  injectBackend (create failingTemplateRenderer false namedConfig)
                mockBackend.

Definition adapterEmptyName : SendgridNotificationAdapter :=
  injectBackend (create mockTemplateRenderer false configEmptyName)
                mockBackend.

Definition adapterEmptyBackend : SendgridNotificationAdapter :=
  injectBackend (create mockTemplateRenderer false namedConfig)
                emptyBackend.

Definition notificationWithoutId : Notification :=
  with_id IdUndefined mockNotification.

Definition notificationUnreadable : Notification :=
  with_files (Some [brokenAttachment]) mockNotification.

Definition loggingAdapter : Logged.LoggingAdapter :=
  Logged.mkLoggingAdapter adapter (Some Logged.TheLogger).

Definition quietAdapter : Logged.LoggingAdapter :=
  Logged.mkLoggingAdapter adapter None.

Definition notificationWithFiles : Notification :=
  with_files (Some [attachment1; attachment2]) mockNotification.

End Fixtures.

(** ** Base64 sanity: the RFC 4648 test vectors and the output length *)

Example base64_rfc4648_vectors :
  map (fun s => Base64.encode (list_byte_of_string s))
      [""; "f"; "fo"; "foo"; "foob"; "fooba"; "foobar"]
  = [""; "Zg=="; "Zm8="; "Zm9v"; "Zm9vYg=="; "Zm9vYmE="; "Zm9vYmFy"].
Proof. reflexivity. Qed.

(** Four characters for every started group of three octets. *)
Lemma base64_length (bs : list byte) :
  String.length (Base64.encode bs) = 4 * ((List.length bs + 2) / 3).
Proof.
  assert (H : forall n (l : list byte), List.length l < n ->
            String.length (Base64.encode l) = 4 * ((List.length l + 2) / 3)).
  { induction n as [|n IH]; intros l Hl; [lia|].
    destruct l as [|a [|b [|c rest]]]; try reflexivity.
    change (String.length (Base64.encode (a :: b :: c :: rest)))
      with (4 + String.length (Base64.encode rest)).
    rewrite IH by (simpl in Hl; lia).
    change (List.length (a :: b :: c :: rest)) with (3 + List.length rest).
    replace (3 + List.length rest + 2) with (List.length rest + 2 + 1 * 3)
      by lia.
    rewrite Nat.div_add by lia. lia. }
  apply (H (S (List.length bs))). lia.
Qed.

(** ** The monad and the trace observers *)

Lemma mail_calls_app (t1 t2 : list Event) :
  mail_calls (t1 ++ t2) = mail_calls t1 ++ mail_calls t2.
Proof.
  induction t1 as [|e t1 IH]; simpl; [reflexivity|].
  destruct e; simpl; rewrite ?IH; reflexivity.
Qed.

Lemma mail_calls_reads (atts : list StoredAttachment) :
  mail_calls (map ReadCall atts) = [].
Proof. induction atts; simpl; auto. Qed.

(** ** [Promise.all] *)

Lemma promise_all_settle_values {A} (ps : list (Pending A)) (vs : list A) :
  promise_all_settle ps = inr vs ->
  Forall2 (fun p v => settles_to p = Fulfilled v) ps vs.
Proof.
  revert vs; induction ps as [|p ps IH]; simpl; intros vs H.
  - injection H as <-. constructor.
  - destruct (settles_to p) as [a|e] eqn:Hp;
      destruct (promise_all_settle ps) as [[t' e']|ws]; try discriminate.
    + injection H as <-. constructor; auto.
    + destruct (Nat.ltb t' (settles_at p)); discriminate.
Qed.

Lemma promise_all_settle_reason {A} (ps : list (Pending A)) t e :
  promise_all_settle ps = inl (t, e) ->
  exists p, In p ps /\ settles_to p = Rejected e /\ settles_at p = t.
Proof.
  revert t e; induction ps as [|p ps IH]; simpl; intros t e H;
    [discriminate|].
  destruct (settles_to p) as [a|e0] eqn:Hp;
    destruct (promise_all_settle ps) as [[t' e']|ws]; try discriminate.
  - injection H as -> ->.
    destruct (IH _ _ eq_refl) as (q & Hq & Hr & Ht). exists q; auto.
  - destruct (Nat.ltb t' (settles_at p)); injection H as <- <-.
    + destruct (IH _ _ eq_refl) as (q & Hq & Hr & Ht). exists q; auto.
    + exists p; auto.
  - injection H as <- <-. exists p; auto.
Qed.

Lemma promise_all_settle_rejects {A} (ps : list (Pending A)) p e :
  In p ps -> settles_to p = Rejected e ->
  exists r, promise_all_settle ps = inl r.
Proof.
  induction ps as [|q ps IH]; simpl; intros Hin Hp; [contradiction|].
  destruct Hin as [->|Hin].
  - rewrite Hp. destruct (promise_all_settle ps) as [[t' e']|ws]; eauto.
    destruct (Nat.ltb t' (settles_at p)); eauto.
  - destruct (IH Hin Hp) as [[t' e'] ->].
    destruct (settles_to q); eauto.
    destruct (Nat.ltb t' (settles_at q)); eauto.
Qed.

(** ** [prepareAttachments] *)

Lemma prepareAttachments_fulfilled atts out :
  outcome (prepareAttachments atts) = Fulfilled out ->
  Forall2 translated atts out.
Proof.
  unfold prepareAttachments, outcome, promise_all; simpl.
  destruct (promise_all_settle _) as [[t e]|vs] eqn:H; [discriminate|].
  intros [= <-]. apply promise_all_settle_values in H.
  remember (map _ atts) as ps eqn:Hps. revert atts Hps.
  induction H as [|p v ps vs Hp _ IH]; intros [|att atts] Hps;
    try discriminate; constructor.
  - injection Hps as -> _. unfold pending_map in Hp; simpl in Hp.
    destruct (settles_to (read (file att))) as [content|] eqn:Hc;
      [|discriminate].
    injection Hp as <-. exists content; auto.
  - injection Hps as _ ->. apply IH; reflexivity.
Qed.

Lemma prepareAttachments_rejected atts e :
  outcome (prepareAttachments atts) = Rejected e ->
  exists att, In att atts /\ settles_to (read (file att)) = Rejected e.
Proof.
  unfold prepareAttachments, outcome, promise_all; simpl.
  destruct (promise_all_settle _) as [[t e']|vs] eqn:H; [|discriminate].
  intros [= <-]. apply promise_all_settle_reason in H.
  destruct H as (p & Hin & Hp & _). apply in_map_iff in Hin.
  destruct Hin as (att & <- & Hin). exists att; split; [assumption|].
  unfold pending_map in Hp; simpl in Hp.
  destruct (settles_to (read (file att))); [discriminate|congruence].
Qed.

Lemma prepareAttachments_rejects atts att e :
  In att atts -> settles_to (read (file att)) = Rejected e ->
  exists e', outcome (prepareAttachments atts) = Rejected e'.
Proof.
  intros Hin Hr. unfold prepareAttachments, outcome, promise_all; simpl.
  destruct (promise_all_settle_rejects
              (map (fun a => pending_map (attachment_data a) (read (file a)))
                   atts)
              (pending_map (attachment_data att) (read (file att))) e)
    as [[t e'] ->].
  - apply in_map_iff. exists att; auto.
  - unfold pending_map; simpl. rewrite Hr; reflexivity.
  - eauto.
Qed.

(** ** The recipient resolver *)

Lemma getRecipientEmail_one_off b n address :
  emailOrPhone n = Some address ->
  getRecipientEmail b n = ([], Fulfilled address).
Proof. intros H. unfold getRecipientEmail. rewrite H. reflexivity. Qed.

Lemma getRecipientEmail_account b n :
  emailOrPhone n = None ->
  getRecipientEmail b n
  = ([LookupCall (id n)],
     match getUserEmailFromNotification b (id n) with
     | Fulfilled (Some address) => Fulfilled address
     | Fulfilled None =>
         Rejected ("User email not found for notification "
                     ++ id_to_string (id n))%string
     | Rejected e => Rejected e
     end).
Proof.
  intros H. unfold getRecipientEmail. rewrite H.
  destruct (getUserEmailFromNotification b (id n)) as [[a|]|e]; reflexivity.
Qed.

Lemma getRecipientEmail_no_mail b n :
  mail_calls (trace (getRecipientEmail b n)) = [].
Proof.
  destruct (emailOrPhone n) as [a|] eqn:H.
  - rewrite (getRecipientEmail_one_off b n a H). reflexivity.
  - rewrite (getRecipientEmail_account b n H). reflexivity.
Qed.

Lemma send_runs sgMail this n ctx :
  send_run sgMail this n ctx (send sgMail this n ctx).
Proof.
  unfold send.
  destruct (backend this) as [b|] eqn:Hb; [|now apply run_no_backend].
  destruct (render (templateRenderer this) n ctx) as [template|e] eqn:Hr;
    simpl; [|now eapply run_render_rejected; eauto].
  destruct (truthy_id (id n)) eqn:Hid; simpl;
    [|now eapply run_id_required; eauto].
  destruct (getRecipientEmail b n) as [t [address|e]] eqn:Hg; simpl;
    [|now eapply run_recipient_rejected; eauto].
  fold (plain_mail this template address).
  destruct (attachments n) as [[|att atts]|] eqn:Ha; simpl.
  - eapply run_mail_plain; eauto.
  - destruct (promise_all _) as [prepared|e] eqn:Hp; simpl.
    + rewrite app_nil_r.
      apply (run_mail_attachments sgMail this n ctx b template t address
               (att :: atts) prepared); auto; discriminate.
    + rewrite ?app_nil_r.
      apply (run_prepare_rejected sgMail this n ctx b template t address
               (att :: atts) e); auto; discriminate.
  - eapply run_mail_plain; eauto.
Qed.

Lemma getRecipientEmail_trace b n t o :
  getRecipientEmail b n = (t, o) ->
  (t = [] /\ exists address, emailOrPhone n = Some address)
  \/ (t = [LookupCall (id n)] /\ emailOrPhone n = None).
Proof.
  destruct (emailOrPhone n) as [a|] eqn:H; intros Hg.
  - rewrite (getRecipientEmail_one_off b n a H) in Hg.
    injection Hg as <- _. left; eauto.
  - rewrite (getRecipientEmail_account b n H) in Hg.
    injection Hg as <- _. right; auto.
Qed.

(** Case analysis on the run of one call, with the trace of the resolver
    replaced by what it can be. *)
Ltac run_cases sgMail this n ctx :=
  let r := fresh "r" in
  let Hrun := fresh "Hrun" in
  pose proof (send_runs sgMail this n ctx) as Hrun;
  remember (send sgMail this n ctx) as r;
  match goal with H : r = send _ _ _ _ |- _ => clear H end;
  destruct Hrun as
    [ Hb
    | b e Hb Hr
    | b template Hb Hr Hid
    | b template t e Hb Hr Hid Hg
    | b template t address atts e Hb Hr Hid Hg Ha Hne Hp
    | b template t address Hb Hr Hid Hg Ha
    | b template t address atts prepared Hb Hr Hid Hg Ha Hne Hp ];
  try (destruct (getRecipientEmail_trace _ _ _ _ Hg)
        as [[-> [oneoff Hoff]] | [-> Hoff]]);
  unfold trace, outcome; cbn [fst snd app mail_calls];
  rewrite ?mail_calls_app, ?mail_calls_reads; cbn [fst snd app mail_calls].

Lemma in_reads att atts : In (ReadCall att) (map ReadCall atts) -> In att atts.
Proof.
  intros H. apply in_map_iff in H. destruct H as (a & [= ->] & H). exact H.
Qed.

Lemma not_lookup_in_reads v atts : ~ In (LookupCall v) (map ReadCall atts).
Proof.
  intros H. apply in_map_iff in H. destruct H as (a & Habs & _). discriminate.
Qed.

Lemma Forall2_nth_error_left {A B} (R : A -> B -> Prop) l l' :
  Forall2 R l l' ->
  forall i a, nth_error l i = Some a ->
              exists b, nth_error l' i = Some b /\ R a b.
Proof.
  induction 1 as [|x y l l' Hxy _ IH]; intros [|i] a Hi;
    simpl in Hi; try discriminate.
  - injection Hi as <-. exists y; auto.
  - apply (IH i a Hi).
Qed.

Lemma Forall2_same_length {A B} (R : A -> B -> Prop) l l' :
  Forall2 R l l' -> List.length l' = List.length l.
Proof. induction 1; simpl; auto. Qed.

(** The two precondition failures, as equations. *)
Lemma send_no_backend sgMail this n ctx :
  backend this = None ->
  send sgMail this n ctx = ([], Rejected "Backend not injected").
Proof. intros H. unfold send. rewrite H. reflexivity. Qed.

Lemma send_falsy_id sgMail this n ctx b :
  backend this = Some b ->
  truthy_id (id n) = false ->
  send sgMail this n ctx
  = ([RenderCall n ctx],
     match render (templateRenderer this) n ctx with
     | Fulfilled _ => Rejected "Notification ID is required"
     | Rejected e => Rejected e
     end).
Proof.
  intros Hb Hid. unfold send. rewrite Hb.
  destruct (render (templateRenderer this) n ctx); simpl;
    [rewrite Hid|]; reflexivity.
Qed.

(** ** The scenarios of the spec, run *)

Import Fixtures.

Example scenario_account_notification :
  send mockSend
       (injectBackend
          (create mockTemplateRenderer false
             (mkSendgridConfig "K" "a@x.com" (Some "App")))
          (mkBackend (fun _ => Fulfilled (Some "b@y.com"))))
       (with_id (IdString "1") mockNotification) []
  = ([RenderCall (with_id (IdString "1") mockNotification) [];
      LookupCall (IdString "1");
      MailCall {| md_to := "b@y.com";
                  md_from := EmailObject "a@x.com" "App";
                  md_subject := "Test Subject";
                  md_html := "<p>Test Body</p>";
                  md_attachments := None |}],
     Fulfilled tt).
Proof. reflexivity. Qed.

Example scenario_one_off_notification :
  send mockSend adapter mockOneOffNotification []
  = ([RenderCall mockOneOffNotification [];
      MailCall {| md_to := "oneoff@example.com";
                  md_from := EmailObject "noreply@example.com" "Example App";
                  md_subject := "Test Subject";
                  md_html := "<p>Test Body</p>";
                  md_attachments := None |}],
     Fulfilled tt).
Proof. reflexivity. Qed.

Example scenario_multiple_attachments :
  mail_calls
    (trace (send mockSend adapter
              (with_files (Some [attachment1; attachment2]) mockNotification)
              context))
  = [ {| md_to := "user@example.com";
         md_from := EmailObject "noreply@example.com" "Example App";
         md_subject := "Test Subject";
         md_html := "<p>Test Body</p>";
         md_attachments :=
           Some [ mkAttachmentData "document.pdf" "ZmlsZSAxIGNvbnRlbnQ="
                    "application/pdf" "attachment";
                  mkAttachmentData "image.png" "ZmlsZSAyIGNvbnRlbnQ="
                    "image/png" "attachment" ] |} ].
Proof. reflexivity. Qed.

Example scenario_without_from_name :
  mail_calls
    (trace (send mockSend
              (injectBackend (create mockTemplateRenderer false
                                configWithoutName) mockBackend)
              mockNotification context))
  = [ {| md_to := "user@example.com";
         md_from := EmailString "noreply@example.com";
         md_subject := "Test Subject";
         md_html := "<p>Test Body</p>";
         md_attachments := None |} ].
Proof. reflexivity. Qed.

(** Two failing reads: the rejection that happens first wins, whatever its
    position. *)
Example scenario_first_rejection_wins :
  let slow := mkStoredAttachment "a" "f" "slow.bin" "x" 0 ""
                (mkAttachmentFile (mkPending 9 (Rejected "timeout"))) in
  outcome (prepareAttachments [slow; brokenAttachment]) = Rejected "ENOENT"
  /\ outcome (prepareAttachments [brokenAttachment; slow]) = Rejected "ENOENT".
Proof. split; reflexivity. Qed.

(** ** Properties of [send] *)

(** C8.  On an adapter without an injected backend, [send] fails with the
    "Backend not injected" error and calls no collaborator at all (nothing is
    rendered, looked up, read or sent), whatever the notification: account
    bound or one-off. *)
Theorem send_requires_backend sgMail this n ctx :
  backend this = None ->
  outcome (send sgMail this n ctx) = Rejected "Backend not injected"
  /\ trace (send sgMail this n ctx) = []
  /\ mail_calls (trace (send sgMail this n ctx)) = [].
Proof.
  intros H. rewrite (send_no_backend sgMail this n ctx H). auto.
Qed.

Lemma send_requires_backend_witness :
  (outcome (send mockSend adapterWithoutBackend mockOneOffNotification [])
   = Rejected "Backend not injected"
   /\ trace (send mockSend adapterWithoutBackend mockOneOffNotification [])
      = []
   /\ mail_calls
        (trace (send mockSend adapterWithoutBackend mockOneOffNotification []))
      = [])
  /\ outcome (send mockSend adapterWithoutBackend mockNotification [])
     = Rejected "Backend not injected".
Proof.
  split.
  - apply send_requires_backend. reflexivity.
  - apply (send_requires_backend mockSend adapterWithoutBackend
             mockNotification []). reflexivity.
Defined.

(** C2, as stated, fails: with a backend injected and the id absent the
    template renderer is invoked all the same, before the id is looked at. *)
Lemma renderer_invoked_for_absent_id :
  backend adapter = Some mockBackend
  /\ truthy_id (id notificationWithoutId) = false
  /\ outcome (send mockSend adapter notificationWithoutId context)
     = Rejected "Notification ID is required"
  /\ In (RenderCall notificationWithoutId context)
        (trace (send mockSend adapter notificationWithoutId context)).
Proof. repeat split. left. reflexivity. Qed.

(** C2, amended.  [send] checks that a backend is injected, then renders
    the template, and only then checks [notification.id].  Without a backend
    nothing is called.  With a backend and an absent id (undefined, null or
    the empty string) the template renderer is invoked exactly once and no
    other collaborator is; [send] fails with "Notification ID is required"
    when the render succeeds and with the render's own error when it does
    not. *)
Theorem send_checks_backend_renders_then_checks_id sgMail this n ctx :
  (backend this = None ->
   send sgMail this n ctx = ([], Rejected "Backend not injected"))
  /\ (forall b,
        backend this = Some b ->
        truthy_id (id n) = false ->
        trace (send sgMail this n ctx) = [RenderCall n ctx]
        /\ outcome (send sgMail this n ctx)
           = match render (templateRenderer this) n ctx with
             | Fulfilled _ => Rejected "Notification ID is required"
             | Rejected e => Rejected e
             end).
Proof.
  split.
  - apply send_no_backend.
  - intros b Hb Hid. rewrite (send_falsy_id sgMail this n ctx b Hb Hid).
    split; reflexivity.
Qed.

Lemma send_checks_backend_renders_then_checks_id_witness :
  trace (send mockSend adapter (with_id IdNull mockOneOffNotification) context)
  = [RenderCall (with_id IdNull mockOneOffNotification) context]
  /\ outcome (send mockSend adapter (with_id IdNull mockOneOffNotification)
                context)
     = Rejected "Notification ID is required".
Proof.
  apply (proj2 (send_checks_backend_renders_then_checks_id mockSend adapter
                  (with_id IdNull mockOneOffNotification) context)
           mockBackend); reflexivity.
Defined.

(** C6, as stated, fails: when the template render fails, a notification
    without id is rejected with the render's error, not with the
    id-required error. *)
Lemma absent_id_render_error_wins :
  backend adapterFailingRender = Some mockBackend
  /\ truthy_id (id notificationWithoutId) = false
  /\ outcome (send mockSend adapterFailingRender notificationWithoutId context)
     = Rejected "Template not found"
  /\ outcome (send mockSend adapterFailingRender notificationWithoutId context)
     <> Rejected "Notification ID is required".
Proof. repeat split. discriminate. Qed.

(** C6, amended.  For every notification with an absent id, on an adapter
    with an injected backend, [send] fails and makes no outbound mail call;
    the failure is the "Notification ID is required" error whenever the
    template render succeeds (a render failure is reported instead, since
    rendering comes first). *)
Theorem send_absent_id_fails_without_mail sgMail this n ctx b :
  backend this = Some b ->
  truthy_id (id n) = false ->
  (exists e, outcome (send sgMail this n ctx) = Rejected e)
  /\ mail_calls (trace (send sgMail this n ctx)) = []
  /\ (forall template,
        render (templateRenderer this) n ctx = Fulfilled template ->
        outcome (send sgMail this n ctx)
        = Rejected "Notification ID is required").
Proof.
  intros Hb Hid. rewrite (send_falsy_id sgMail this n ctx b Hb Hid).
  unfold outcome, trace; simpl. repeat split.
  - destruct (render (templateRenderer this) n ctx); eauto.
  - intros template ->. reflexivity.
Qed.

Lemma send_absent_id_fails_without_mail_witness :
  (exists e,
      outcome (send mockSend adapter (with_id IdUndefined mockNotification)
                 context) = Rejected e)
  /\ mail_calls
       (trace (send mockSend adapter (with_id IdUndefined mockNotification)
                 context)) = []
  /\ (forall template,
        render (templateRenderer adapter)
               (with_id IdUndefined mockNotification) context
        = Fulfilled template ->
        outcome (send mockSend adapter (with_id IdUndefined mockNotification)
                   context)
        = Rejected "Notification ID is required").
Proof.
  apply (send_absent_id_fails_without_mail mockSend adapter
           (with_id IdUndefined mockNotification) context mockBackend);
    reflexivity.
Defined.

(** C1, as stated, fails: with a present id, an injected backend, a
    successful render and a resolved recipient, a notification whose
    attachment cannot be read produces no outbound mail call. *)
Lemma unreadable_attachment_no_mail_call :
  backend adapter = Some mockBackend
  /\ truthy_id (id notificationUnreadable) = true
  /\ render (templateRenderer adapter) notificationUnreadable context
     = Fulfilled renderedTemplate
  /\ outcome (getRecipientEmail mockBackend notificationUnreadable)
     = Fulfilled "user@example.com"
  /\ mail_calls (trace (send mockSend adapter notificationUnreadable context))
     = [].
Proof. repeat split. Qed.

(** C1, amended.  For every notification with a present id (one that passes
    the [!notification.id] test), an injected backend, a successful template
    render yielding [{subject, body}], a successfully resolved recipient
    address and, when it has attachments, every attachment read successful,
    [send] performs exactly one outbound mail call, whose payload has [to]
    equal to the resolved recipient, [subject] the rendered subject, [html]
    the rendered body, and [from] equal to [{email: fromEmail, name:
    fromName}] when a (non-empty) [fromName] is configured and to the bare
    [fromEmail] string when it is absent. *)
Theorem send_one_mail_call_with_payload sgMail this n ctx be tpl recipient :
  backend this = Some be ->
  truthy_id (id n) = true ->
  render (templateRenderer this) n ctx = Fulfilled tpl ->
  outcome (getRecipientEmail be n) = Fulfilled recipient ->
  (forall atts att,
      attachments n = Some atts -> In att atts ->
      exists content, settles_to (read (file att)) = Fulfilled content) ->
  exists m,
    mail_calls (trace (send sgMail this n ctx)) = [m]
    /\ md_to m = recipient
    /\ md_subject m = subject tpl
    /\ md_html m = body tpl
    /\ (forall name,
          fromName (config this) = Some name -> name <> "" ->
          md_from m = EmailObject (fromEmail (config this)) name)
    /\ (fromName (config this) = None ->
        md_from m = EmailString (fromEmail (config this))).
Proof.
  intros Hb' Hid' Hr' Hg' Hreads.
  assert (Hfrom :
    (forall name,
        fromName (config this) = Some name -> name <> "" ->
        sender (config this) = EmailObject (fromEmail (config this)) name)
    /\ (fromName (config this) = None ->
        sender (config this) = EmailString (fromEmail (config this)))).
  { unfold sender, truthy_string. split.
    - intros name -> Hne. apply String.eqb_neq in Hne. rewrite Hne.
      reflexivity.
    - intros ->. reflexivity. }
  run_cases sgMail this n ctx; try congruence.
  all: rewrite Hb' in Hb; injection Hb as <-.
  all: rewrite Hr' in Hr; injection Hr as <-.
  all: rewrite Hg in Hg'; cbn in Hg'.
  all: try discriminate.
  all: try injection Hg' as <-.
  all: try (destruct (prepareAttachments_rejected _ _ Hp) as (att & Hin & Hrej);
            destruct (Hreads _ _ Ha Hin) as [content Hc]; congruence).
  all: eexists; split; [reflexivity|]; cbn; tauto.
Qed.

Lemma send_one_mail_call_with_payload_witness :
  exists m,
    mail_calls
      (trace (send mockSend adapter
                (with_files (Some [attachment1; attachment2]) mockNotification)
                context)) = [m]
    /\ md_to m = "user@example.com"
    /\ md_subject m = subject renderedTemplate
    /\ md_html m = body renderedTemplate
    /\ (forall name,
          fromName (config adapter) = Some name -> name <> "" ->
          md_from m = EmailObject (fromEmail (config adapter)) name)
    /\ (fromName (config adapter) = None ->
        md_from m = EmailString (fromEmail (config adapter))).
Proof.
  apply (send_one_mail_call_with_payload mockSend adapter
           (with_files (Some [attachment1; attachment2]) mockNotification)
           context mockBackend renderedTemplate "user@example.com");
    try reflexivity.
  intros atts att [= <-] [<- | [<- | []]]; eexists; reflexivity.
Defined.

(** C3.  For every notification with N >= 1 attachments, the [attachments]
    array of the outbound request has exactly N elements, and element i has
    [content] equal to the base64 encoding of the bytes returned by
    attachment i's [file.read()], [filename] and [type] copied from
    attachment i's [filename] and [contentType], and [disposition] equal to
    "attachment": the output order is the input order. *)
Theorem outbound_attachments_mirror_input sgMail this n ctx files m :
  attachments n = Some files ->
  1 <= List.length files ->
  In m (mail_calls (trace (send sgMail this n ctx))) ->
  exists out,
    md_attachments m = Some out
    /\ List.length out = List.length files
    /\ forall i att,
         nth_error files i = Some att ->
         exists content,
           settles_to (read (file att)) = Fulfilled content
           /\ nth_error out i
              = Some {| ad_filename := filename att;
                        ad_content := Base64.encode content;
                        ad_type := contentType att;
                        ad_disposition := "attachment" |}.
Proof.
  intros Hatts Hlen.
  run_cases sgMail this n ctx; intros Hin; cbn in Hin; try contradiction.
  all: try (destruct Ha as [Ha | Ha]; rewrite Ha in Hatts;
            [discriminate | injection Hatts as <-; simpl in Hlen; lia]).
  all: try (rewrite Ha in Hatts; discriminate).
  all: destruct Hin as [<- | []].
  all: rewrite Ha in Hatts; injection Hatts as <-.
  all: apply prepareAttachments_fulfilled in Hp.
  all: exists prepared; split; [reflexivity|].
  all: split; [apply (Forall2_same_length _ _ _ Hp)|].
  all: intros i att Hi.
  all: destruct (Forall2_nth_error_left _ _ _ Hp i att Hi)
         as (d & Hd & content & Hc & ->).
  all: exists content; auto.
Qed.

Lemma outbound_attachments_mirror_input_witness :
  exists out,
    md_attachments
      {| md_to := "user@example.com";
         md_from := EmailObject "noreply@example.com" "Example App";
         md_subject := "Test Subject";
         md_html := "<p>Test Body</p>";
         md_attachments :=
           Some [ mkAttachmentData "document.pdf" "ZmlsZSAxIGNvbnRlbnQ="
                    "application/pdf" "attachment";
                  mkAttachmentData "image.png" "ZmlsZSAyIGNvbnRlbnQ="
                    "image/png" "attachment" ] |} = Some out
    /\ List.length out = List.length [attachment1; attachment2]
    /\ forall i att,
         nth_error [attachment1; attachment2] i = Some att ->
         exists content,
           settles_to (read (file att)) = Fulfilled content
           /\ nth_error out i
              = Some {| ad_filename := filename att;
                        ad_content := Base64.encode content;
                        ad_type := contentType att;
                        ad_disposition := "attachment" |}.
Proof.
  apply (outbound_attachments_mirror_input mockSend adapter
           (with_files (Some [attachment1; attachment2]) mockNotification)
           context).
  - reflexivity.
  - simpl; lia.
  - left; reflexivity.
Defined.

(** C4.  For every notification whose attachments sequence is empty or
    absent, the outbound request carries no [attachments] field at all, and
    the attachment translator is not invoked (nor is any file read). *)
Theorem no_attachments_no_field sgMail this n ctx :
  attachments n = None \/ attachments n = Some [] ->
  (forall m, In m (mail_calls (trace (send sgMail this n ctx))) ->
             md_attachments m = None)
  /\ (forall atts, ~ In (PrepareCall atts) (trace (send sgMail this n ctx)))
  /\ (forall att, ~ In (ReadCall att) (trace (send sgMail this n ctx))).
Proof.
  intros Hnone.
  assert (Habs : forall atts, attachments n = Some atts -> atts <> [] -> False).
  { intros atts Ha Hne. destruct Hnone as [H | H]; rewrite H in Ha;
      [discriminate | injection Ha as <-; now apply Hne]. }
  run_cases sgMail this n ctx; try (exfalso; eapply Habs; eassumption).
  all: split; [intros m Hm | split; intros x Hx]; cbn in *.
  all: try contradiction.
  all: try (destruct Hm as [<- | []]; reflexivity).
  all: intuition discriminate.
Qed.

Lemma no_attachments_no_field_witness :
  (forall m,
      In m (mail_calls
              (trace (send mockSend adapter
                        (with_files (Some []) mockNotification) context))) ->
      md_attachments m = None)
  /\ (forall atts,
        ~ In (PrepareCall atts)
             (trace (send mockSend adapter
                       (with_files (Some []) mockNotification) context)))
  /\ (forall att,
        ~ In (ReadCall att)
             (trace (send mockSend adapter
                       (with_files (Some []) mockNotification) context))).
Proof.
  apply (no_attachments_no_field mockSend adapter
           (with_files (Some []) mockNotification) context).
  right; reflexivity.
Defined.

(** C5.  For every one-off notification (one carrying [emailOrPhone]),
    [send] never invokes the backend's recipient lookup, and the outbound
    request's [to] field is the notification's own [emailOrPhone] value. *)
Theorem one_off_sent_to_own_address sgMail this n ctx recipient :
  emailOrPhone n = Some recipient ->
  (forall v, ~ In (LookupCall v) (trace (send sgMail this n ctx)))
  /\ (forall m, In m (mail_calls (trace (send sgMail this n ctx))) ->
                md_to m = recipient).
Proof.
  intros Hone.
  run_cases sgMail this n ctx; try congruence.
  all: try (rewrite (getRecipientEmail_one_off _ _ _ Hone) in Hg;
            injection Hg as <-).
  all: split; [intros v Hv | intros m Hm]; cbn in *.
  all: try contradiction.
  all: try (destruct Hm as [<- | []]; reflexivity).
  all: try (intuition discriminate).
  all: destruct Hv as [Hv | [Hv | Hv]]; try discriminate.
  all: try (apply in_app_iff in Hv; destruct Hv as [Hv | [Hv | []]];
            try discriminate).
  all: eapply not_lookup_in_reads; eassumption.
Qed.

Lemma one_off_sent_to_own_address_witness :
  (forall v,
      ~ In (LookupCall v)
           (trace (send mockSend adapter mockOneOffNotification context)))
  /\ (forall m,
        In m (mail_calls
                (trace (send mockSend adapter mockOneOffNotification context)))
        -> md_to m = "oneoff@example.com").
Proof.
  apply (one_off_sent_to_own_address mockSend adapter mockOneOffNotification
           context "oneoff@example.com").
  reflexivity.
Defined.

(** C7.  For every account-bound notification (no [emailOrPhone]) whose
    backend recipient lookup, made by [send], returns no value, [send] fails
    with an error whose message names that notification's id, and no
    outbound mail call is made. *)
Theorem missing_user_email_names_notification sgMail this n ctx be :
  emailOrPhone n = None ->
  backend this = Some be ->
  In (LookupCall (id n)) (trace (send sgMail this n ctx)) ->
  getUserEmailFromNotification be (id n) = Fulfilled None ->
  (exists s,
      id n = IdString s
      /\ outcome (send sgMail this n ctx)
         = Rejected ("User email not found for notification " ++ s)%string)
  /\ mail_calls (trace (send sgMail this n ctx)) = [].
Proof.
  intros Hacc Hbe.
  run_cases sgMail this n ctx; intros Hin Hnone; cbn in Hin.
  all: try congruence.
  all: try (exfalso; intuition discriminate).
  all: rewrite Hbe in Hb; injection Hb as <-.
  all: rewrite (getRecipientEmail_account _ _ Hacc), Hnone in Hg.
  all: try discriminate.
  injection Hg as <-. split; [|reflexivity].
  destruct (id n) as [| |s]; try discriminate. exists s; auto.
Qed.

Lemma missing_user_email_names_notification_witness :
  (exists s,
      id mockNotification = IdString s
      /\ outcome (send mockSend
                    adapterEmptyBackend mockNotification context)
         = Rejected ("User email not found for notification " ++ s)%string)
  /\ mail_calls
       (trace (send mockSend
                 adapterEmptyBackend mockNotification context)) = [].
Proof.
  apply (missing_user_email_names_notification mockSend
adapterEmptyBackend
           mockNotification context emptyBackend); try reflexivity.
  right; left; reflexivity.
Defined.

(** C9.  For every notification with one or more attachments, if the
    byte-read of an attachment, made by [send], fails, then [send] fails
    with the error of a failed read, unchanged (the one that failed first;
    that very error when it is the only one), no outbound mail call is
    made, and so no partial attachment set is sent. *)
Theorem failed_read_aborts_send sgMail this n ctx att err :
  In (ReadCall att) (trace (send sgMail this n ctx)) ->
  settles_to (read (file att)) = Rejected err ->
  mail_calls (trace (send sgMail this n ctx)) = []
  /\ (exists files att' err',
         attachments n = Some files /\ In att' files
         /\ settles_to (read (file att')) = Rejected err'
         /\ outcome (send sgMail this n ctx) = Rejected err')
  /\ ((forall files att' err',
          attachments n = Some files -> In att' files ->
          settles_to (read (file att')) = Rejected err' -> err' = err) ->
      outcome (send sgMail this n ctx) = Rejected err).
Proof.
  run_cases sgMail this n ctx; intros Hin Hfail; cbn in Hin.
  all: try (exfalso; intuition discriminate).
  all: try (exfalso;
            repeat (destruct Hin as [Hin | Hin]; try discriminate);
            apply in_app_iff in Hin; destruct Hin as [Hin | [Hin | []]];
            try discriminate; apply in_reads in Hin;
            destruct (prepareAttachments_rejects _ _ _ Hin Hfail) as [e' He'];
            congruence).
  all: destruct (prepareAttachments_rejected _ _ Hp) as (att' & Hin' & Hrej).
  all: split; [reflexivity|]; split;
    [ exists atts, att', e; auto
    | intros Honly; rewrite (Honly atts att' e Ha Hin' Hrej); reflexivity ].
Qed.

Lemma failed_read_aborts_send_witness :
  mail_calls
    (trace (send mockSend adapter
              (with_files (Some [attachment1; brokenAttachment])
                 mockOneOffNotification) context)) = []
  /\ outcome (send mockSend adapter
                (with_files (Some [attachment1; brokenAttachment])
                   mockOneOffNotification) context) = Rejected "ENOENT".
Proof.
  destruct (failed_read_aborts_send mockSend adapter
              (with_files (Some [attachment1; brokenAttachment])
                 mockOneOffNotification) context brokenAttachment "ENOENT")
    as (Hmail & _ & Honly).
  - right; right; right; left; reflexivity.
  - reflexivity.
  - split; [exact Hmail|]. apply Honly.
    intros files att' err' [= <-] [<- | [<- | []]]; cbn; congruence.
Defined.

(** C10.  If the configuration's [fromName] is present but equal to the
    empty string, [send] uses the bare [fromEmail] string as the request's
    [from] field, as it does for an absent name, never the pair
    [{email: fromEmail, name: ""}]. *)
Theorem empty_from_name_sends_bare_address sgMail this n ctx :
  fromName (config this) = Some "" ->
  sender (config this) = EmailString (fromEmail (config this))
  /\ forall m,
       In m (mail_calls (trace (send sgMail this n ctx))) ->
       md_from m = EmailString (fromEmail (config this))
       /\ md_from m <> EmailObject (fromEmail (config this)) "".
Proof.
  intros Hname.
  assert (Hs : sender (config this) = EmailString (fromEmail (config this))).
  { unfold sender. rewrite Hname. reflexivity. }
  split; [exact Hs|].
  run_cases sgMail this n ctx; intros m Hm; cbn in Hm; try contradiction.
  all: destruct Hm as [<- | []]; cbn; rewrite Hs; split;
    [reflexivity | discriminate].
Qed.

Lemma empty_from_name_sends_bare_address_witness :
  md_from (plain_mail adapterEmptyName renderedTemplate "user@example.com")
  = EmailString "noreply@example.com".
Proof.
  apply (proj2 (empty_from_name_sends_bare_address mockSend adapterEmptyName
                  mockNotification context eq_refl)).
  left; reflexivity.
Defined.

(** ** Further properties of [send] *)

Lemma reads_of_app (t1 t2 : list Event) :
  reads_of (t1 ++ t2) = reads_of t1 ++ reads_of t2.
Proof.
  induction t1 as [|ev t1 IH]; simpl; [reflexivity|].
  destruct ev; simpl; rewrite ?IH; reflexivity.
Qed.

Lemma reads_of_reads (files : list StoredAttachment) :
  reads_of (map ReadCall files) = files.
Proof. induction files; simpl; congruence. Qed.

(** X1.  A template render failure is reported unchanged, and nothing else
    is called: no recipient lookup, no file read, no mail call. *)
Theorem render_failure_propagates sgMail this n ctx be err :
  backend this = Some be ->
  render (templateRenderer this) n ctx = Rejected err ->
  send sgMail this n ctx = ([RenderCall n ctx], Rejected err).
Proof.
  intros Hbe Hrej. unfold send. rewrite Hbe, Hrej. reflexivity.
Qed.

Lemma render_failure_propagates_witness :
  send mockSend adapterFailingRender mockOneOffNotification context
  = ([RenderCall mockOneOffNotification context],
     Rejected "Template not found").
Proof.
  apply (render_failure_propagates mockSend adapterFailingRender
           mockOneOffNotification context mockBackend); reflexivity.
Defined.

(** X2.  Whatever [send] hands to [sgMail.send] is well formed: a backend
    was injected, the id is present, the subject and body are those of a
    successful render, the recipient is the one the resolver returned, and
    the sender is the configured one. *)
Theorem mail_call_is_well_formed sgMail this n ctx m :
  In m (mail_calls (trace (send sgMail this n ctx))) ->
  exists be tpl,
    backend this = Some be
    /\ truthy_id (id n) = true
    /\ render (templateRenderer this) n ctx = Fulfilled tpl
    /\ outcome (getRecipientEmail be n) = Fulfilled (md_to m)
    /\ md_subject m = subject tpl
    /\ md_html m = body tpl
    /\ md_from m = sender (config this).
Proof.
  run_cases sgMail this n ctx; intros Hm; cbn in Hm; try contradiction.
  all: destruct Hm as [<- | []].
  all: exists b, template; rewrite Hg; cbn; auto 10.
Qed.

Lemma mail_call_is_well_formed_witness :
  exists be tpl,
    backend adapter = Some be
    /\ truthy_id (id mockNotification) = true
    /\ render (templateRenderer adapter) mockNotification context
       = Fulfilled tpl
    /\ outcome (getRecipientEmail be mockNotification)
       = Fulfilled (md_to (plain_mail adapter renderedTemplate
                             "user@example.com"))
    /\ md_subject (plain_mail adapter renderedTemplate "user@example.com")
       = subject tpl
    /\ md_html (plain_mail adapter renderedTemplate "user@example.com")
       = body tpl
    /\ md_from (plain_mail adapter renderedTemplate "user@example.com")
       = sender (config adapter).
Proof.
  apply (mail_call_is_well_formed mockSend adapter mockNotification context).
  left; reflexivity.
Defined.

(** X3.  One call of [send] makes at most one mail call, and a mail call is
    the last thing [send] does. *)
Theorem mail_call_is_last_and_single sgMail this n ctx :
  mail_calls (trace (send sgMail this n ctx)) = []
  \/ exists pre m,
       trace (send sgMail this n ctx) = pre ++ [MailCall m]
       /\ mail_calls pre = [].
Proof.
  run_cases sgMail this n ctx; auto; right.
  - exists [RenderCall n ctx]; eexists; split; reflexivity.
  - exists [RenderCall n ctx; LookupCall (id n)]; eexists; split; reflexivity.
  - exists (RenderCall n ctx :: PrepareCall atts :: map ReadCall atts).
    eexists; split; [reflexivity|]. cbn. apply mail_calls_reads.
  - exists (RenderCall n ctx :: LookupCall (id n)
              :: PrepareCall atts :: map ReadCall atts).
    eexists; split; [reflexivity|]. cbn. apply mail_calls_reads.
Qed.

(** X4.  [send] settles exactly as its mail call does: a transport error is
    reported unchanged, and [send] succeeds only if one mail call was made
    and accepted. *)
Theorem send_settles_as_mail_call sgMail this n ctx :
  (forall m, In m (mail_calls (trace (send sgMail this n ctx))) ->
             outcome (send sgMail this n ctx) = sgMail_send sgMail m)
  /\ (outcome (send sgMail this n ctx) = Fulfilled tt ->
      exists m, mail_calls (trace (send sgMail this n ctx)) = [m]
                /\ sgMail_send sgMail m = Fulfilled tt).
Proof.
  run_cases sgMail this n ctx; split.
  all: try (intros m Hm; cbn in Hm; try contradiction;
            destruct Hm as [<- | []]; reflexivity).
  all: try (intros Hok; discriminate).
  all: intros Hok; eexists; split; [reflexivity | exact Hok].
Qed.

(** X5.  [send] calls nothing at all exactly when no backend is injected;
    with a backend, the template renderer is invoked first, with the very
    notification and context passed to [send], and never a second time. *)
Theorem renderer_invoked_first_and_once sgMail this n ctx :
  (backend this = None <-> trace (send sgMail this n ctx) = [])
  /\ (forall be,
        backend this = Some be ->
        exists rest,
          trace (send sgMail this n ctx) = RenderCall n ctx :: rest
          /\ forall n' ctx', ~ In (RenderCall n' ctx') rest).
Proof.
  run_cases sgMail this n ctx; split.
  all: try (split; [reflexivity | congruence]).
  all: try (split; [congruence | discriminate]).
  all: try (intros be Hbe; congruence).
  all: intros be _; eexists; split; [reflexivity|].
  all: intros n' ctx' Hin; cbn in Hin.
  all: repeat (destruct Hin as [Hin | Hin]; try discriminate).
  all: try contradiction.
  all: try (apply in_app_iff in Hin; destruct Hin as [Hin | [Hin | []]];
            try discriminate).
  all: apply in_map_iff in Hin; destruct Hin as (x & Hx & _); discriminate.
Qed.

(** X6.  A file is read only for a notification that can be delivered: when
    [send] calls an attachment's [read], a backend is injected, the id is
    present, the template has been rendered, the recipient has been resolved,
    and the attachment is one of the notification's own. *)
Theorem reads_only_for_deliverable sgMail this n ctx att :
  In (ReadCall att) (trace (send sgMail this n ctx)) ->
  exists be tpl recipient files,
    backend this = Some be
    /\ truthy_id (id n) = true
    /\ render (templateRenderer this) n ctx = Fulfilled tpl
    /\ outcome (getRecipientEmail be n) = Fulfilled recipient
    /\ attachments n = Some files
    /\ In att files.
Proof.
  run_cases sgMail this n ctx; intros Hin; cbn in Hin.
  all: try (exfalso; intuition discriminate).
  all: repeat (destruct Hin as [Hin | Hin]; try discriminate).
  all: try (apply in_app_iff in Hin; destruct Hin as [Hin | [Hin | []]];
            try discriminate).
  all: apply in_reads in Hin.
  all: exists b, template; eexists; exists atts; rewrite Hg; cbn; auto 10.
Qed.

Lemma reads_only_for_deliverable_witness :
  exists be tpl recipient files,
    backend adapter = Some be
    /\ truthy_id (id (with_files (Some [attachment1]) mockNotification)) = true
    /\ render (templateRenderer adapter)
              (with_files (Some [attachment1]) mockNotification) context
       = Fulfilled tpl
    /\ outcome (getRecipientEmail be
                  (with_files (Some [attachment1]) mockNotification))
       = Fulfilled recipient
    /\ attachments (with_files (Some [attachment1]) mockNotification)
       = Some files
    /\ In attachment1 files.
Proof.
  apply (reads_only_for_deliverable mockSend adapter
           (with_files (Some [attachment1]) mockNotification) context).
  right; right; right; left; reflexivity.
Defined.

(** X7.  When the recipient cannot be resolved, [send] fails with the
    resolver's error unchanged, before it touches any attachment: the
    translator is not invoked, no file is read and no mail call is made. *)
Theorem recipient_failure_propagates sgMail this n ctx be tpl err :
  backend this = Some be ->
  truthy_id (id n) = true ->
  render (templateRenderer this) n ctx = Fulfilled tpl ->
  outcome (getRecipientEmail be n) = Rejected err ->
  outcome (send sgMail this n ctx) = Rejected err
  /\ mail_calls (trace (send sgMail this n ctx)) = []
  /\ reads_of (trace (send sgMail this n ctx)) = []
  /\ (forall files, ~ In (PrepareCall files) (trace (send sgMail this n ctx))).
Proof.
  intros Hbe Hpresent Hrender Hrej.
  run_cases sgMail this n ctx; try congruence.
  all: rewrite Hbe in Hb; injection Hb as <-.
  all: rewrite Hg in Hrej; cbn in Hrej; try discriminate.
  all: injection Hrej as <-.
  all: repeat split; intros files Hin; cbn in Hin; intuition discriminate.
Qed.

Lemma recipient_failure_propagates_witness :
  outcome (send mockSend adapterEmptyBackend
             (with_files (Some [attachment1]) mockNotification) context)
  = Rejected "User email not found for notification 123"
  /\ mail_calls
       (trace (send mockSend adapterEmptyBackend
                 (with_files (Some [attachment1]) mockNotification) context))
     = []
  /\ reads_of
       (trace (send mockSend adapterEmptyBackend
                 (with_files (Some [attachment1]) mockNotification) context))
     = []
  /\ (forall files,
        ~ In (PrepareCall files)
             (trace (send mockSend adapterEmptyBackend
                       (with_files (Some [attachment1]) mockNotification)
                       context))).
Proof.
  apply (recipient_failure_propagates mockSend adapterEmptyBackend
           (with_files (Some [attachment1]) mockNotification) context
           emptyBackend renderedTemplate); reflexivity.
Defined.

(** X8.  The [from] field of every outbound request carries the configured
    [fromEmail] as its address; it is the pair [{email, name}] exactly when
    [fromName] is a non-empty string, and the bare address exactly when
    [fromName] is absent or empty. *)
Theorem from_field_characterised sgMail this n ctx m :
  In m (mail_calls (trace (send sgMail this n ctx))) ->
  email_of (md_from m) = fromEmail (config this)
  /\ ((exists name,
          md_from m = EmailObject (fromEmail (config this)) name
          /\ fromName (config this) = Some name /\ name <> "")
      \/ (md_from m = EmailString (fromEmail (config this))
          /\ (fromName (config this) = None
              \/ fromName (config this) = Some ""))).
Proof.
  assert (Hs :
    email_of (sender (config this)) = fromEmail (config this)
    /\ ((exists name,
            sender (config this) = EmailObject (fromEmail (config this)) name
            /\ fromName (config this) = Some name /\ name <> "")
        \/ (sender (config this) = EmailString (fromEmail (config this))
            /\ (fromName (config this) = None
                \/ fromName (config this) = Some "")))).
  { unfold sender, truthy_string.
    destruct (fromName (config this)) as [name|]; [|cbn; auto].
    destruct (String.eqb_spec name "") as [-> | Hne]; cbn.
    - auto.
    - split; [reflexivity|]. left. exists name; auto. }
  run_cases sgMail this n ctx; intros Hm; cbn in Hm; try contradiction.
  all: destruct Hm as [<- | []]; exact Hs.
Qed.

Lemma from_field_characterised_witness :
  email_of (md_from (plain_mail adapterEmptyName renderedTemplate
                       "user@example.com"))
  = fromEmail (config adapterEmptyName).
Proof.
  apply (from_field_characterised mockSend adapterEmptyName mockNotification
           context).
  left; reflexivity.
Defined.

(** X9.  Once [send] reaches the attachment stage it calls [read] on every
    attachment of the notification exactly once, in input order, whether or
    not one of the reads fails. *)
Theorem every_attachment_read_once sgMail this n ctx files :
  In (PrepareCall files) (trace (send sgMail this n ctx)) ->
  attachments n = Some files
  /\ files <> []
  /\ reads_of (trace (send sgMail this n ctx)) = files.
Proof.
  run_cases sgMail this n ctx; intros Hin; cbn in Hin.
  all: try (exfalso; intuition discriminate).
  all: repeat (destruct Hin as [Hin | Hin]; try discriminate).
  all: try (apply in_app_iff in Hin; destruct Hin as [Hin | [Hin | []]];
            try discriminate).
  all: try (apply in_map_iff in Hin; destruct Hin as (x & Hx & _);
            discriminate).
  all: injection Hin as <-.
  all: repeat split; auto.
  all: cbn; rewrite ?reads_of_app, reads_of_reads; cbn;
    rewrite ?app_nil_r; reflexivity.
Qed.

Lemma every_attachment_read_once_witness :
  attachments (with_files (Some [attachment1; brokenAttachment])
                 mockOneOffNotification)
  = Some [attachment1; brokenAttachment]
  /\ [attachment1; brokenAttachment] <> []
  /\ reads_of
       (trace (send mockSend adapter
                 (with_files (Some [attachment1; brokenAttachment])
                    mockOneOffNotification) context))
     = [attachment1; brokenAttachment].
Proof.
  apply (every_attachment_read_once mockSend adapter
           (with_files (Some [attachment1; brokenAttachment])
              mockOneOffNotification) context).
  right; left; reflexivity.
Defined.

(** ** Further properties of [prepareAttachments] *)

Lemma promise_all_settle_fulfilled {A B} (f : A -> Pending B) (g : A -> B)
    (l : list A) :
  (forall a, In a l -> settles_to (f a) = Fulfilled (g a)) ->
  promise_all_settle (map f l) = inr (map g l).
Proof.
  induction l as [|a l IH]; intros H; simpl; [reflexivity|].
  rewrite (H a (or_introl eq_refl)), IH; [reflexivity|].
  intros a' Ha'. apply H. right; exact Ha'.
Qed.

Lemma promise_all_settle_earliest {A} (ps : list (Pending A)) t e :
  promise_all_settle ps = inl (t, e) ->
  forall q e', In q ps -> settles_to q = Rejected e' -> t <= settles_at q.
Proof.
  revert t e; induction ps as [|p ps IH]; simpl; intros t e H q e' Hq Hrej;
    [contradiction|].
  destruct (settles_to p) as [a|e0] eqn:Hp;
    destruct (promise_all_settle ps) as [[t' e1]|ws] eqn:Hps;
    try discriminate.
  - injection H as -> ->. destruct Hq as [-> | Hq]; [congruence|].
    eapply IH; eauto.
  - destruct (Nat.ltb_spec t' (settles_at p)) as [Hlt | Hge];
      injection H as <- <-.
    + destruct Hq as [<- | Hq]; [lia|]. eapply IH; eauto.
    + destruct Hq as [<- | Hq]; [lia|].
      specialize (IH _ _ eq_refl q e' Hq Hrej). lia.
  - injection H as <- <-. destruct Hq as [<- | Hq]; [lia|].
    destruct (promise_all_settle_rejects ps q e' Hq Hrej) as [r Hr].
    congruence.
Qed.

Lemma promise_all_settle_app_values {A} (ps qs : list (Pending A)) vs :
  promise_all_settle (ps ++ qs) = inr vs <->
  exists xs ys, vs = xs ++ ys
                /\ promise_all_settle ps = inr xs
                /\ promise_all_settle qs = inr ys.
Proof.
  revert vs; induction ps as [|p ps IH]; intros vs; simpl.
  - split.
    + intros H. exists [], vs. auto.
    + intros (xs & ys & -> & [= <-] & H). exact H.
  - destruct (settles_to p) as [a|e0].
    + destruct (promise_all_settle (ps ++ qs)) as [r|ws] eqn:Happ.
      * split; [discriminate|].
        intros (xs & ys & -> & Hps & Hqs).
        destruct (promise_all_settle ps) as [r'|xs'] eqn:Hps';
          [discriminate|].
        injection Hps as <-.
        assert (Habs : inl r = inr (xs' ++ ys)).
        { apply (proj2 (IH (xs' ++ ys))). exists xs', ys. auto. }
        discriminate.
      * destruct (proj1 (IH ws) eq_refl) as (xs & ys & -> & Hps & Hqs).
        rewrite Hps. split.
        -- intros [= <-]. exists (a :: xs), ys. auto.
        -- intros (xs' & ys' & -> & [= <-] & Hqs').
           rewrite Hqs in Hqs'. injection Hqs' as <-. reflexivity.
    + split.
      * destruct (promise_all_settle (ps ++ qs)) as [[t' e1]|ws];
          [destruct (Nat.ltb t' (settles_at p))|]; discriminate.
      * intros (xs & ys & _ & Hps & _).
        destruct (promise_all_settle ps) as [[t' e1]|ws];
          [destruct (Nat.ltb t' (settles_at p))|]; discriminate.
Qed.

(** X10.  When every read succeeds, [prepareAttachments] yields one
    descriptor per attachment, in input order, whatever the order in which
    the reads complete. *)
Theorem prepareAttachments_keeps_input_order files
    (bytes_of : StoredAttachment -> list byte) :
  (forall att, In att files ->
               settles_to (read (file att)) = Fulfilled (bytes_of att)) ->
  outcome (prepareAttachments files)
  = Fulfilled
      (map (fun att =>
              {| ad_filename := filename att;
                 ad_content := Base64.encode (bytes_of att);
                 ad_type := contentType att;
                 ad_disposition := "attachment" |}) files).
Proof.
  intros Hall. unfold prepareAttachments, outcome, promise_all; cbn [snd].
  rewrite (promise_all_settle_fulfilled
             (fun att => pending_map (attachment_data att) (read (file att)))
             (fun att => attachment_data att (bytes_of att))); [reflexivity|].
  intros att Hin. unfold pending_map; cbn. rewrite (Hall att Hin).
  reflexivity.
Qed.

Lemma prepareAttachments_keeps_input_order_witness :
  outcome (prepareAttachments [attachment1; attachment2])
  = Fulfilled
      [ mkAttachmentData "document.pdf" "ZmlsZSAxIGNvbnRlbnQ="
          "application/pdf" "attachment";
        mkAttachmentData "image.png" "ZmlsZSAyIGNvbnRlbnQ="
          "image/png" "attachment" ].
Proof.
  apply (prepareAttachments_keeps_input_order [attachment1; attachment2]
           (fun att => if String.eqb (att_id att) "att-1"
                       then fileBuffer1 else fileBuffer2)).
  intros att [<- | [<- | []]]; reflexivity.
Defined.

(** X11.  [prepareAttachments] fails exactly when the read of some
    attachment fails: there is no other way for it to fail, and no failed
    read is tolerated. *)
Theorem prepareAttachments_fails_iff_a_read_fails files :
  (exists err, outcome (prepareAttachments files) = Rejected err)
  <-> (exists att err,
          In att files /\ settles_to (read (file att)) = Rejected err).
Proof.
  split.
  - intros [err H].
    destruct (prepareAttachments_rejected files err H) as (att & Hin & Hrej).
    eauto.
  - intros (att & err & Hin & Hrej).
    exact (prepareAttachments_rejects files att err Hin Hrej).
Qed.

(** X12.  When several reads fail, the error reported is the one of a read
    that failed first: no other failed read settled strictly earlier. *)
Theorem prepareAttachments_reports_first_failure files err :
  outcome (prepareAttachments files) = Rejected err ->
  exists att,
    In att files
    /\ settles_to (read (file att)) = Rejected err
    /\ forall att' err',
         In att' files ->
         settles_to (read (file att')) = Rejected err' ->
         settles_at (read (file att)) <= settles_at (read (file att')).
Proof.
  unfold prepareAttachments, outcome, promise_all; cbn [snd].
  destruct (promise_all_settle _) as [[t e]|vs] eqn:H; [|discriminate].
  intros [= <-].
  destruct (promise_all_settle_reason _ _ _ H) as (p & Hin & Hp & Ht).
  apply in_map_iff in Hin. destruct Hin as (att & <- & Hin).
  exists att. split; [exact Hin|]. split.
  - unfold pending_map in Hp; cbn in Hp.
    destruct (settles_to (read (file att))); [discriminate | congruence].
  - intros att' err' Hin' Hrej'. cbn in Ht. rewrite Ht.
    apply (promise_all_settle_earliest _ _ _ H
             (pending_map (attachment_data att') (read (file att'))) err').
    + apply in_map_iff. exists att'; auto.
    + unfold pending_map; cbn. rewrite Hrej'. reflexivity.
Qed.

Lemma prepareAttachments_reports_first_failure_witness :
  exists att,
    In att [attachment1; brokenAttachment]
    /\ settles_to (read (file att)) = Rejected "ENOENT"
    /\ forall att' err',
         In att' [attachment1; brokenAttachment] ->
         settles_to (read (file att')) = Rejected err' ->
         settles_at (read (file att)) <= settles_at (read (file att')).
Proof.
  apply (prepareAttachments_reports_first_failure
           [attachment1; brokenAttachment] "ENOENT").
  reflexivity.
Defined.

(** X13.  Translation is element by element: a list of attachments is
    translated successfully exactly when its two halves are, and the result
    is the concatenation of their translations. *)
Theorem prepareAttachments_app files1 files2 out :
  outcome (prepareAttachments (files1 ++ files2)) = Fulfilled out
  <-> exists out1 out2,
        out = out1 ++ out2
        /\ outcome (prepareAttachments files1) = Fulfilled out1
        /\ outcome (prepareAttachments files2) = Fulfilled out2.
Proof.
  unfold prepareAttachments, outcome, promise_all; cbn [snd].
  rewrite map_app.
  set (ps := map _ files1). set (qs := map _ files2).
  pose proof (promise_all_settle_app_values ps qs out) as Happ.
  destruct (promise_all_settle (ps ++ qs)) as [[t e]|vs] eqn:Hall.
  - split; [discriminate|].
    intros (out1 & out2 & -> & H1 & H2).
    destruct (promise_all_settle ps) as [[t1 e1]|xs]; [discriminate|].
    destruct (promise_all_settle qs) as [[t2 e2]|ys]; [discriminate|].
    injection H1 as <-. injection H2 as <-.
    assert (Habs : @inl (nat * Error) (list AttachmentData) (t, e)
                   = inr (xs ++ ys)).
    { apply (proj2 Happ). exists xs, ys. auto. }
    discriminate.
  - split.
    + intros [= <-]. destruct (proj1 Happ eq_refl) as (xs & ys & -> & -> & ->).
      exists xs, ys. auto.
    + intros (out1 & out2 & -> & H1 & H2).
      destruct (promise_all_settle ps) as [[t1 e1]|xs]; [discriminate|].
      destruct (promise_all_settle qs) as [[t2 e2]|ys]; [discriminate|].
      injection H1 as <-. injection H2 as <-.
      pose proof (proj2 Happ
                    (ex_intro _ xs
                       (ex_intro _ ys
                          (conj eq_refl (conj eq_refl eq_refl))))) as E.
      injection E as ->. reflexivity.
Qed.

(** ** The logging revision against the plain one *)

Lemma calls_of_app (t1 t2 : list Logged.LoggedEvent) :
  Logged.calls_of (t1 ++ t2) = Logged.calls_of t1 ++ Logged.calls_of t2.
Proof.
  induction t1 as [|ev t1 IH]; simpl; [reflexivity|].
  destruct ev; simpl; rewrite ?IH; reflexivity.
Qed.

Lemma lines_of_app (t1 t2 : list Logged.LoggedEvent) :
  Logged.lines_of (t1 ++ t2) = Logged.lines_of t1 ++ Logged.lines_of t2.
Proof.
  induction t1 as [|ev t1 IH]; simpl; [reflexivity|].
  destruct ev; simpl; rewrite ?IH; reflexivity.
Qed.

Lemma calls_of_lifted (t : list Event) :
  Logged.calls_of (map Logged.Call t) = t.
Proof. induction t; simpl; congruence. Qed.

Lemma lines_of_lifted (t : list Event) :
  Logged.lines_of (map Logged.Call t) = [].
Proof. induction t; simpl; auto. Qed.

Lemma calls_of_info l message :
  Logged.calls_of (Logged.info l message) = [].
Proof. destruct l; reflexivity. Qed.

Lemma calls_of_completions l deadline files :
  Logged.calls_of (flat_map (Logged.completion l deadline) files) = [].
Proof.
  induction files as [|att files IH]; simpl; [reflexivity|].
  rewrite calls_of_app, IH, app_nil_r. unfold Logged.completion.
  destruct (settles_to (read (file att))); [|reflexivity].
  destruct deadline as [t|]; [destruct (Nat.leb _ t)|];
    auto using calls_of_info.
Qed.

Lemma calls_of_preparations l files :
  Logged.calls_of
    (flat_map (fun att => Logged.info l (Logged.preparing_line att)
                            ++ [Logged.Call (ReadCall att)]) files)
  = map ReadCall files.
Proof.
  induction files as [|att files IH]; simpl; [reflexivity|].
  rewrite calls_of_app, calls_of_app, calls_of_info, IH. reflexivity.
Qed.

Lemma logged_prepareAttachments_calls l files :
  Logged.calls_of (Logged.ltrace (Logged.prepareAttachments l files))
  = trace (prepareAttachments files)
  /\ Logged.loutcome (Logged.prepareAttachments l files)
     = outcome (prepareAttachments files).
Proof.
  split; [|reflexivity].
  unfold Logged.prepareAttachments, Logged.ltrace; cbn [fst Logged.calls_of].
  rewrite calls_of_app, calls_of_preparations, calls_of_completions,
    app_nil_r.
  reflexivity.
Qed.

Lemma logged_send_calls sgMail this n ctx :
  Logged.calls_of (Logged.ltrace (Logged.send sgMail this n ctx))
  = trace (send sgMail (Logged.adapter_of this) n ctx)
  /\ Logged.loutcome (Logged.send sgMail this n ctx)
     = outcome (send sgMail (Logged.adapter_of this) n ctx).
Proof.
  unfold Logged.send, send.
  destruct (backend (Logged.adapter_of this)) as [be|]; [|split; reflexivity].
  destruct (render (templateRenderer (Logged.adapter_of this)) n ctx)
    as [tpl|err]; [|split; reflexivity].
  destruct (truthy_id (id n)) eqn:Hid; [|cbn; split; reflexivity].
  destruct (getRecipientEmail be n) as [t [recipient|err]] eqn:Hg;
    [|cbn; rewrite calls_of_lifted; split; reflexivity].
  destruct (attachments n) as [[|att files]|] eqn:Ha.
  1, 3: cbn;
    destruct (sgMail_send sgMail _) as [[]|?]; cbn;
    rewrite ?calls_of_app, ?calls_of_lifted; cbn;
    rewrite ?calls_of_info, ?app_nil_r; split; reflexivity.
  destruct (logged_prepareAttachments_calls (Logged.logger this)
              (att :: files)) as [Hcalls Hout].
  remember (Logged.prepareAttachments (Logged.logger this) (att :: files))
    as lp eqn:Hlp.
  remember (prepareAttachments (att :: files)) as pp eqn:Hpp.
  destruct lp as [lt lo]. destruct pp as [pt po].
  cbn [Logged.ltrace Logged.loutcome trace outcome fst snd] in Hcalls, Hout.
  subst pt po.
  unfold Logged.lbind, Logged.lawait, Logged.lift, Logged.lret, bind, await,
    ret, Logged.ltrace, Logged.loutcome, trace, outcome.
  cbn [negb fst snd List.length Nat.ltb Nat.leb].
  cbn [negb fst snd].
  destruct lo as [prepared|err].
  - destruct (sgMail_send sgMail _) as [[]|?]; cbn [fst snd app];
      repeat (rewrite ?calls_of_app, ?calls_of_lifted, ?calls_of_info,
                ?app_nil_r; cbn [Logged.calls_of app]);
      rewrite <- ?app_assoc; split; reflexivity.
  - cbn [fst snd app Logged.calls_of].
    rewrite ?calls_of_app, ?calls_of_lifted. split; reflexivity.
Qed.

(** X16.  Logging changes nothing but the log: with the lines dropped, the
    logging revision of [send] makes exactly the collaborator calls of the
    plain one, in the same order, and settles the same way, with or without
    a logger. *)
Theorem logging_send_makes_the_same_calls sgMail this n ctx :
  Logged.calls_of (Logged.ltrace (Logged.send sgMail this n ctx))
  = trace (send sgMail (Logged.adapter_of this) n ctx)
  /\ Logged.loutcome (Logged.send sgMail this n ctx)
     = outcome (send sgMail (Logged.adapter_of this) n ctx).
Proof. exact (logged_send_calls sgMail this n ctx). Qed.

(** The logging [send], one equation per exit. *)
Lemma logged_send_eq sgMail this n ctx :
  Logged.send sgMail this n ctx
  = match backend (Logged.adapter_of this) with
    | None => ([], Rejected "Backend not injected")
    | Some be =>
        match render (templateRenderer (Logged.adapter_of this)) n ctx with
        | Rejected err => ([Logged.Call (RenderCall n ctx)], Rejected err)
        | Fulfilled tpl =>
            if truthy_id (id n)
            then
              match getRecipientEmail be n with
              | (t, Rejected err) =>
                  (Logged.Call (RenderCall n ctx) :: map Logged.Call t,
                   Rejected err)
              | (t, Fulfilled recipient) =>
                  let plain :=
                    plain_mail (Logged.adapter_of this) tpl recipient in
                  let dispatch m :=
                    (Logged.Call (MailCall m)
                       :: match sgMail_send sgMail m with
                          | Fulfilled _ =>
                              Logged.info (Logged.logger this)
                                (Logged.sent_line n)
                          | Rejected _ => []
                          end,
                     sgMail_send sgMail m) in
                  match attachments n with
                  | Some (att :: files) =>
                      match Logged.prepareAttachments (Logged.logger this)
                              (att :: files) with
                      | (lt, Rejected err) =>
                          (Logged.Call (RenderCall n ctx)
                             :: map Logged.Call t ++ lt,
                           Rejected err)
                      | (lt, Fulfilled prepared) =>
                          (Logged.Call (RenderCall n ctx)
                             :: map Logged.Call t ++ lt
                             ++ Logged.info (Logged.logger this)
                                  (Logged.added_line n
                                     (List.length (att :: files)))
                             ++ fst (dispatch
                                       (with_attachments plain prepared)),
                           snd (dispatch (with_attachments plain prepared)))
                      end
                  | _ =>
                      (Logged.Call (RenderCall n ctx)
                         :: map Logged.Call t ++ fst (dispatch plain),
                       snd (dispatch plain))
                  end
              end
            else ([Logged.Call (RenderCall n ctx)],
                  Rejected "Notification ID is required")
        end
    end.
Proof.
  unfold Logged.send.
  destruct (backend (Logged.adapter_of this)) as [be|]; [|reflexivity].
  destruct (render (templateRenderer (Logged.adapter_of this)) n ctx)
    as [tpl|err]; [|reflexivity].
  destruct (truthy_id (id n)); [|reflexivity].
  destruct (getRecipientEmail be n) as [t [recipient|err]];
    [|cbn; rewrite ?app_nil_r; reflexivity].
  fold (plain_mail (Logged.adapter_of this) tpl recipient).
  destruct (attachments n) as [[|att files]|].
  1, 3: cbn; rewrite ?app_nil_r;
    destruct (sgMail_send sgMail _) as [[]|?]; cbn;
    rewrite ?app_nil_r; reflexivity.
  remember (Logged.prepareAttachments (Logged.logger this) (att :: files))
    as lp. destruct lp as [lt [prepared|err]].
  - unfold Logged.lbind, Logged.lawait, Logged.lift, Logged.lret.
    cbn [negb fst snd List.length Nat.ltb Nat.leb].
    destruct (sgMail_send sgMail _) as [[]|?]; cbn [fst snd app];
      rewrite ?app_nil_r, <- ?app_assoc; reflexivity.
  - unfold Logged.lbind, Logged.lawait, Logged.lift, Logged.lret.
    cbn [negb fst snd List.length Nat.ltb Nat.leb].
    reflexivity.
Qed.

Lemma lines_of_info lg message :
  Logged.lines_of (Logged.info (Some lg) message) = [message].
Proof. reflexivity. Qed.

Lemma no_lines_is_lifted (t : list Logged.LoggedEvent) :
  Logged.lines_of t = [] -> t = map Logged.Call (Logged.calls_of t).
Proof.
  induction t as [|ev t IH]; simpl; [reflexivity|].
  destruct ev; simpl; [|discriminate].
  intros H. rewrite <- (IH H). reflexivity.
Qed.

Lemma in_insert_settled x y l :
  In y (Logged.insert_settled x l) <-> y = x \/ In y l.
Proof.
  induction l as [|z l IH]; simpl.
  - intuition.
  - destruct (Nat.leb _ _); simpl; [intuition|]. rewrite IH. intuition.
Qed.

Lemma in_settle_order att files :
  In att (Logged.settle_order files) <-> In att files.
Proof.
  induction files as [|x files IH]; simpl; [reflexivity|].
  rewrite in_insert_settled, IH. intuition.
Qed.

Lemma lines_of_preparations lg files :
  Logged.lines_of
    (flat_map (fun att => Logged.info (Some lg) (Logged.preparing_line att)
                            ++ [Logged.Call (ReadCall att)]) files)
  = map Logged.preparing_line files.
Proof.
  induction files as [|att files IH]; [reflexivity|].
  cbn [flat_map map]. rewrite !lines_of_app, IH. reflexivity.
Qed.

Lemma logged_prepareAttachments_lines lg files :
  exists rest,
    Logged.lines_of
      (Logged.ltrace (Logged.prepareAttachments (Some lg) files))
    = map Logged.preparing_line files ++ rest
    /\ forall line, In line rest ->
         exists att content,
           In att files
           /\ settles_to (read (file att)) = Fulfilled content
           /\ line = Logged.read_line att content.
Proof.
  unfold Logged.prepareAttachments, Logged.ltrace; cbn [fst Logged.lines_of].
  rewrite lines_of_app, lines_of_preparations.
  eexists; split; [reflexivity|].
  intros line Hin.
  assert (Hsub : forall l,
             (forall a, In a l -> In a files) ->
             forall d, In line (Logged.lines_of
                                  (flat_map (Logged.completion (Some lg) d) l))
             -> exists att content,
                  In att files
                  /\ settles_to (read (file att)) = Fulfilled content
                  /\ line = Logged.read_line att content).
  { induction l as [|a l IH]; intros Hl d Hd; simpl in Hd; [contradiction|].
    rewrite lines_of_app in Hd. apply in_app_iff in Hd.
    destruct Hd as [Hd | Hd].
    - unfold Logged.completion in Hd.
      destruct (settles_to (read (file a))) as [content|] eqn:Hc;
        [|contradiction].
      assert (Hline : line = Logged.read_line a content).
      { destruct d as [t|]; [destruct (Nat.leb _ t)|]; simpl in Hd;
          intuition. }
      exists a, content. auto using in_eq.
    - apply (IH (fun a' Ha' => Hl a' (or_intror Ha')) d Hd). }
  apply (Hsub _ (fun a Ha => proj1 (in_settle_order a files) Ha) _ Hin).
Qed.

Lemma logged_prepareAttachments_quiet files :
  Logged.lines_of (Logged.ltrace (Logged.prepareAttachments None files)) = [].
Proof.
  unfold Logged.prepareAttachments, Logged.ltrace; cbn [fst Logged.lines_of].
  rewrite lines_of_app.
  assert (H1 : forall l,
             Logged.lines_of
               (flat_map (fun att => Logged.info None
                                       (Logged.preparing_line att)
                                     ++ [Logged.Call (ReadCall att)]) l)
             = []).
  { induction l; simpl; auto. }
  assert (H2 : forall d l,
             Logged.lines_of (flat_map (Logged.completion None d) l) = []).
  { intros d; induction l as [|a l IH]; simpl; [reflexivity|].
    rewrite lines_of_app, IH, app_nil_r. unfold Logged.completion.
    destruct (settles_to (read (file a))); [|reflexivity].
    destruct d as [t|]; [destruct (Nat.leb _ t)|]; reflexivity. }
  rewrite H1, H2. reflexivity.
Qed.

(** Case analysis on a call of the logging [send]. *)
Ltac logged_cases sgMail this n ctx :=
  rewrite !(logged_send_eq sgMail this n ctx);
  destruct (backend (Logged.adapter_of this)) as [be|] eqn:Hbe;
  [ destruct (render (templateRenderer (Logged.adapter_of this)) n ctx)
      as [tpl|rerr] eqn:Hrender;
    [ destruct (truthy_id (id n)) eqn:Hpresent;
      [ destruct (getRecipientEmail be n) as [rt [recipient|gerr]] eqn:Hres;
        [ destruct (attachments n) as [[|att0 files0]|] eqn:Hfiles;
          [ | destruct (Logged.prepareAttachments (Logged.logger this)
                          (att0 :: files0))
                as [lt [prepared|perr]] eqn:Hprep | ]
        | ]
      | ]
    | ]
  | ];
  cbv zeta;
  cbn [fst snd Logged.ltrace Logged.loutcome].

(** X17.  Without a logger the logging revision writes nothing: its trace
    is, event for event, the trace of the plain [send]. *)
Theorem no_logger_no_lines sgMail this n ctx :
  Logged.logger this = None ->
  Logged.ltrace (Logged.send sgMail this n ctx)
  = map Logged.Call (trace (send sgMail (Logged.adapter_of this) n ctx)).
Proof.
  intros Hquiet.
  rewrite <- (proj1 (logged_send_calls sgMail this n ctx)).
  apply no_lines_is_lifted.
  logged_cases sgMail this n ctx; cbn [Logged.lines_of]; auto.
  all: rewrite ?Hquiet in *.
  all: repeat (rewrite ?lines_of_app, ?lines_of_lifted;
               cbn [Logged.lines_of Logged.info app]).
  all: try reflexivity.
  all: try (destruct (sgMail_send sgMail _); reflexivity).
  all: pose proof (logged_prepareAttachments_quiet (att0 :: files0)) as Hq;
    rewrite Hprep in Hq; cbn [Logged.ltrace fst] in Hq; rewrite Hq.
  all: try reflexivity.
  destruct (sgMail_send sgMail _); reflexivity.
Qed.

Lemma no_logger_no_lines_witness :
  Logged.ltrace (Logged.send mockSend quietAdapter notificationWithFiles
                   context)
  = map Logged.Call
      (trace (send mockSend adapter notificationWithFiles context)).
Proof.
  apply (no_logger_no_lines mockSend quietAdapter notificationWithFiles
           context).
  reflexivity.
Defined.

Lemma sent_line_not_from_prepare lg n files :
  ~ In (Logged.sent_line n)
       (Logged.lines_of
          (Logged.ltrace (Logged.prepareAttachments (Some lg) files))).
Proof.
  destruct (logged_prepareAttachments_lines lg files) as (rest & -> & Hrest).
  intros Hin. apply in_app_iff in Hin. destruct Hin as [Hin | Hin].
  - apply in_map_iff in Hin. destruct Hin as (att & Heq & _).
    unfold Logged.sent_line, Logged.preparing_line in Heq. discriminate.
  - destruct (Hrest _ Hin) as (att & content & _ & _ & Heq).
    unfold Logged.sent_line, Logged.read_line in Heq. discriminate.
Qed.

(** X18.  With a logger, the line "Email sent for notification ID <id>" is
    written exactly when [send] succeeds, and it is then the last thing the
    call does; a failed send never claims the email was sent. *)
Theorem sent_line_iff_delivered sgMail this n ctx lg :
  Logged.logger this = Some lg ->
  (In (Logged.sent_line n)
      (Logged.lines_of (Logged.ltrace (Logged.send sgMail this n ctx)))
   <-> Logged.loutcome (Logged.send sgMail this n ctx) = Fulfilled tt)
  /\ (Logged.loutcome (Logged.send sgMail this n ctx) = Fulfilled tt ->
      exists pre,
        Logged.ltrace (Logged.send sgMail this n ctx)
        = pre ++ [Logged.LogInfo (Logged.sent_line n)]).
Proof.
  intros Hlg.
  assert (Hadded : forall k, Logged.added_line n k <> Logged.sent_line n).
  { intros k. unfold Logged.added_line, Logged.sent_line. discriminate. }
  logged_cases sgMail this n ctx; rewrite ?Hlg in *.
  all: try (pose proof (sent_line_not_from_prepare lg n (att0 :: files0))
              as Hnot;
            rewrite Hprep in Hnot; cbn [Logged.ltrace fst] in Hnot).
  all: repeat (rewrite ?lines_of_app, ?lines_of_lifted;
               cbn [Logged.lines_of Logged.info app]).
  all: try (split; [split; [intros []|discriminate] | discriminate]).
  all: try (split; [split; [intros Hin; contradiction|discriminate]
                   | discriminate]).
  all: destruct (sgMail_send sgMail _) as [[]|serr];
    cbn [Logged.lines_of Logged.info app].
  all: rewrite ?app_nil_r.
  all: split; [split|].
  all: try discriminate.
  all: try reflexivity.
  all: try (intros _; left; reflexivity).
  all: try (intros Hin; exfalso; cbn in Hin; intuition; fail).
  all: try (intros _; apply in_or_app; right; right; left; reflexivity).
  all: try (intros Hin; exfalso; apply in_app_iff in Hin;
            destruct Hin as [Hin | [Hin | []]];
            [exact (Hnot Hin) | exact (Hadded _ Hin)]).
  all: intros _.
  - exists (Logged.Call (RenderCall n ctx)
              :: map Logged.Call rt
              ++ [Logged.Call
                    (MailCall
                       (plain_mail (Logged.adapter_of this) tpl recipient))]).
    cbn [app]. rewrite <- app_assoc. reflexivity.
  - exists (Logged.Call (RenderCall n ctx)
              :: map Logged.Call rt ++ lt
              ++ [Logged.LogInfo
                    (Logged.added_line n (List.length (att0 :: files0)));
                  Logged.Call
                    (MailCall
                       (with_attachments
                          (plain_mail (Logged.adapter_of this) tpl recipient)
                          prepared))]).
    cbn [app]. rewrite <- !app_assoc. reflexivity.
  - exists (Logged.Call (RenderCall n ctx)
              :: map Logged.Call rt
              ++ [Logged.Call
                    (MailCall
                       (plain_mail (Logged.adapter_of this) tpl recipient))]).
    cbn [app]. rewrite <- app_assoc. reflexivity.
Qed.

Lemma sent_line_iff_delivered_witness :
  In (Logged.sent_line notificationWithFiles)
     (Logged.lines_of
        (Logged.ltrace (Logged.send mockSend loggingAdapter
                          notificationWithFiles context)))
  <-> Logged.loutcome (Logged.send mockSend loggingAdapter
                         notificationWithFiles context) = Fulfilled tt.
Proof.
  apply (sent_line_iff_delivered mockSend loggingAdapter notificationWithFiles
           context Logged.TheLogger).
  reflexivity.
Defined.

Lemma logged_prepareAttachments_no_mail l files :
  mail_calls
    (Logged.calls_of (Logged.ltrace (Logged.prepareAttachments l files)))
  = [].
Proof.
  rewrite (proj1 (logged_prepareAttachments_calls l files)).
  cbn. apply mail_calls_reads.
Qed.

Lemma logged_prepareAttachments_read_lines lg files lt prepared :
  Logged.prepareAttachments (Some lg) files = (lt, Fulfilled prepared) ->
  forall att content,
    In att files ->
    settles_to (read (file att)) = Fulfilled content ->
    In (Logged.read_line att content) (Logged.lines_of lt).
Proof.
  unfold Logged.prepareAttachments, promise_all.
  destruct (promise_all_settle _) as [[t e]|vs];
    [intros H; discriminate H|].
  intros [= <- _].
  intros att content Hin Hc. cbn [Logged.lines_of].
  rewrite lines_of_app. apply in_or_app. right.
  apply in_settle_order in Hin.
  induction (Logged.settle_order files) as [|a l IH]; [contradiction|].
  cbn [flat_map]. rewrite lines_of_app. apply in_or_app.
  destruct Hin as [-> | Hin]; [left | right; auto].
  unfold Logged.completion. rewrite Hc. left; reflexivity.
Qed.

(** X19.  With a logger, whenever a payload with attachments is handed to
    [sgMail.send], the line "Added <N> attachments to email for notification
    ID <id>" has been written, with N the number of attachments in the
    payload. *)
Theorem added_line_counts_attachments sgMail this n ctx lg m out :
  Logged.logger this = Some lg ->
  In m (mail_calls
          (Logged.calls_of (Logged.ltrace (Logged.send sgMail this n ctx)))) ->
  md_attachments m = Some out ->
  In (Logged.added_line n (List.length out))
     (Logged.lines_of (Logged.ltrace (Logged.send sgMail this n ctx))).
Proof.
  intros Hlg.
  logged_cases sgMail this n ctx; rewrite ?Hlg in *.
  all: try (pose proof (logged_prepareAttachments_no_mail (Some lg)
                          (att0 :: files0)) as Hnm;
            rewrite Hprep in Hnm; cbn [Logged.ltrace fst] in Hnm).
  all: try (pose proof (getRecipientEmail_no_mail be n) as Hrm;
            rewrite Hres in Hrm; cbn [trace fst] in Hrm).
  all: repeat (rewrite ?calls_of_app, ?calls_of_lifted, ?mail_calls_app,
                 ?lines_of_app, ?lines_of_lifted;
               cbn [Logged.calls_of Logged.lines_of Logged.info mail_calls
                      app]).
  all: rewrite ?Hrm, ?Hnm; cbn [app].
  all: try (intros Hm; contradiction Hm).
  all: try (destruct (sgMail_send sgMail _) as [[]|serr];
            cbn [Logged.calls_of Logged.lines_of Logged.info mail_calls app];
            intros [<- | []]; try discriminate).
  all: intros [= <-].
  all: assert (Hlen : List.length prepared = List.length (att0 :: files0))
         by (apply (Forall2_same_length translated);
             apply prepareAttachments_fulfilled;
             rewrite <- (proj2 (logged_prepareAttachments_calls (Some lg)
                                  (att0 :: files0)));
             rewrite Hprep; reflexivity).
  all: rewrite Hlen; apply in_or_app; right; left; reflexivity.
Qed.

Lemma added_line_counts_attachments_witness :
  In (Logged.added_line notificationWithFiles 2)
     (Logged.lines_of
        (Logged.ltrace (Logged.send mockSend loggingAdapter
                          notificationWithFiles context))).
Proof.
  apply (added_line_counts_attachments mockSend loggingAdapter
           notificationWithFiles context Logged.TheLogger
           (with_attachments
              (plain_mail adapter renderedTemplate "user@example.com")
              [ mkAttachmentData "document.pdf" "ZmlsZSAxIGNvbnRlbnQ="
                  "application/pdf" "attachment";
                mkAttachmentData "image.png" "ZmlsZSAyIGNvbnRlbnQ="
                  "image/png" "attachment" ])
           [ mkAttachmentData "document.pdf" "ZmlsZSAxIGNvbnRlbnQ="
               "application/pdf" "attachment";
             mkAttachmentData "image.png" "ZmlsZSAyIGNvbnRlbnQ="
               "image/png" "attachment" ]).
  - reflexivity.
  - left; reflexivity.
  - reflexivity.
Defined.

(** X20.  With a logger, a successful [send] has written, for every
    attachment, the line "Attachment <filename> read successfully, size: <n>
    bytes" with n the number of bytes its read returned. *)
Theorem read_line_reports_size sgMail this n ctx lg files att content :
  Logged.logger this = Some lg ->
  attachments n = Some files ->
  In att files ->
  settles_to (read (file att)) = Fulfilled content ->
  Logged.loutcome (Logged.send sgMail this n ctx) = Fulfilled tt ->
  In (Logged.read_line att content)
     (Logged.lines_of (Logged.ltrace (Logged.send sgMail this n ctx))).
Proof.
  intros Hlg Hatts Hin Hc.
  logged_cases sgMail this n ctx; rewrite ?Hlg in *.
  all: try discriminate.
  all: try (injection Hatts as <-; contradiction).
  injection Hatts as <-. intros _.
  pose proof (logged_prepareAttachments_read_lines lg _ _ _ Hprep att content
                Hin Hc) as Hline.
  cbn [Logged.lines_of]. rewrite !lines_of_app, lines_of_lifted. cbn [app].
  apply in_or_app. left. exact Hline.
Qed.

Lemma read_line_reports_size_witness :
  In (Logged.read_line attachment2 fileBuffer2)
     (Logged.lines_of
        (Logged.ltrace (Logged.send mockSend loggingAdapter
                          notificationWithFiles context))).
Proof.
  apply (read_line_reports_size mockSend loggingAdapter notificationWithFiles
           context Logged.TheLogger [attachment1; attachment2]);
    try reflexivity.
  right; left; reflexivity.
Defined.

(** X21.  With a logger, once [send] reaches the attachment stage the first
    lines written are the lines "Preparing attachment <filename> for
    email", one per attachment and in input order; nothing is logged
    before them. *)
Theorem preparing_lines_come_first sgMail this n ctx lg files :
  Logged.logger this = Some lg ->
  In (PrepareCall files)
     (Logged.calls_of (Logged.ltrace (Logged.send sgMail this n ctx))) ->
  exists rest,
    Logged.lines_of (Logged.ltrace (Logged.send sgMail this n ctx))
    = map Logged.preparing_line files ++ rest.
Proof.
  intros Hlg.
  logged_cases sgMail this n ctx; rewrite ?Hlg in *.
  all: try (destruct (getRecipientEmail_trace _ _ _ _ Hres)
             as [[-> _] | [-> _]]).
  all: try (pose proof (proj1 (logged_prepareAttachments_calls (Some lg)
                                 (att0 :: files0))) as Hc;
            rewrite Hprep in Hc;
            unfold prepareAttachments, trace, Logged.ltrace in Hc;
            cbn [fst] in Hc;
            destruct (logged_prepareAttachments_lines lg (att0 :: files0))
              as (rest0 & Hl & _);
            rewrite Hprep in Hl; cbn [Logged.ltrace fst] in Hl).
  all: cbn [map app Logged.calls_of Logged.lines_of].
  all: repeat (rewrite ?calls_of_app, ?lines_of_app;
               cbn [map app Logged.calls_of Logged.lines_of Logged.info]).
  all: rewrite ?Hc, ?Hl.
  all: intros Hin; cbn [In app] in Hin.
  all: try (exfalso; intuition discriminate).
  all: try (exfalso;
            destruct (sgMail_send sgMail _); cbn in Hin;
            intuition discriminate).
  all: repeat (destruct Hin as [Hin | Hin]; try discriminate).
  all: try (injection Hin as <-; rewrite <- ?app_assoc; eexists; reflexivity).
  all: exfalso.
  all: try (apply in_app_iff in Hin; destruct Hin as [Hin | Hin]).
  all: try (apply in_map_iff in Hin; destruct Hin as (x & Hx & _);
            discriminate).
  all: cbn in Hin; destruct (sgMail_send sgMail _); cbn in Hin;
    intuition discriminate.
Qed.

Lemma preparing_lines_come_first_witness :
  exists rest,
    Logged.lines_of
      (Logged.ltrace (Logged.send mockSend loggingAdapter
                        notificationWithFiles context))
    = map Logged.preparing_line [attachment1; attachment2] ++ rest.
Proof.
  apply (preparing_lines_come_first mockSend loggingAdapter
           notificationWithFiles context Logged.TheLogger).
  - reflexivity.
  - right; right; left; reflexivity.
Defined.

(** ** Base64 text: shape and losslessness *)

Lemma land63_lt (n : N) : (N.land n 63 < 64)%N.
Proof.
  change 63%N with (N.ones 6). rewrite N.land_ones.
  apply N.mod_lt. discriminate.
Qed.

Lemma sextet_spec (n : N) :
  Base64Text.index (Base64.sextet n) = Some (N.land n 63)
  /\ Base64Text.is_base64_char (Base64.sextet n) = true.
Proof.
  assert (Hall :
    forallb
      (fun k =>
         match String.get k Base64.alphabet with
         | Some c =>
             (match Base64Text.index c with
              | Some i => N.eqb i (N.of_nat k)
              | None => false
              end && Base64Text.is_base64_char c)%bool
         | None => false
         end) (seq 0 64) = true) by (vm_compute; reflexivity).
  rewrite forallb_forall in Hall.
  pose proof (land63_lt n) as Hlt.
  specialize (Hall (N.to_nat (N.land n 63))).
  unfold Base64.sextet.
  destruct (String.get (N.to_nat (N.land n 63)) Base64.alphabet) as [c|].
  - assert (Hin : In (N.to_nat (N.land n 63)) (seq 0 64))
      by (apply in_seq; lia).
    apply Hall in Hin. apply andb_prop in Hin. destruct Hin as [Hi Hc].
    destruct (Base64Text.index c) as [i|]; [|discriminate].
    apply N.eqb_eq in Hi. rewrite Hi, N2Nat.id. auto.
  - assert (Hin : In (N.to_nat (N.land n 63)) (seq 0 64))
      by (apply in_seq; lia).
    apply Hall in Hin. discriminate.
Qed.

Lemma in_all_bytes (b : byte) : In b Base64Text.all_bytes.
Proof.
  unfold Base64Text.all_bytes. apply in_map_iff.
  exists (Byte.to_nat b). split.
  - unfold Base64Text.byte_of. rewrite <- Byte.of_nat_via_N, Byte.of_to_nat.
    reflexivity.
  - apply in_seq. pose proof (Byte.to_nat_bounded b). lia.
Qed.

Lemma for_all_bytes (P : byte -> bool) :
  forallb P Base64Text.all_bytes = true -> forall b, P b = true.
Proof.
  intros H b. rewrite forallb_forall in H. apply H, in_all_bytes.
Qed.

Lemma for_all_byte_pairs (P : byte -> byte -> bool) :
  forallb (fun a => forallb (P a) Base64Text.all_bytes) Base64Text.all_bytes
  = true ->
  forall a b, P a b = true.
Proof.
  intros H a b.
  apply (for_all_bytes (P a)). apply (for_all_bytes _ H a).
Qed.

Lemma group_lor k x y :
  Base64Text.group k (N.lor x y)
  = N.lor (Base64Text.group k x) (Base64Text.group k y).
Proof.
  unfold Base64Text.group. rewrite N.shiftr_lor, N.land_lor_distr_l.
  reflexivity.
Qed.

(** The groups of a packed triple, each in terms of the octets it draws
    from. *)
Lemma groups_of_pack a b c :
  let hi := N.shiftl (Byte.to_N a) 16 in
  let mid := N.shiftl (Byte.to_N b) 8 in
  let lo := Byte.to_N c in
  Base64Text.group 0 (Base64.pack a b c) = Base64Text.group 0 hi
  /\ Base64Text.group 1 (Base64.pack a b c)
     = N.lor (Base64Text.group 1 hi) (Base64Text.group 1 mid)
  /\ Base64Text.group 2 (Base64.pack a b c)
     = N.lor (Base64Text.group 2 mid) (Base64Text.group 2 lo)
  /\ Base64Text.group 3 (Base64.pack a b c) = Base64Text.group 3 lo.
Proof.
  intros hi mid lo. unfold Base64.pack. fold hi mid lo.
  rewrite !group_lor.
  assert (Hmid : forall x,
             (N.eqb (Base64Text.group 0 (N.shiftl (Byte.to_N x) 8)) 0
              && N.eqb (Base64Text.group 3 (N.shiftl (Byte.to_N x) 8)) 0)%bool
             = true)
    by (apply for_all_bytes; vm_compute; reflexivity).
  assert (Hlo : forall x,
             (N.eqb (Base64Text.group 0 (Byte.to_N x)) 0
              && N.eqb (Base64Text.group 1 (Byte.to_N x)) 0)%bool = true)
    by (apply for_all_bytes; vm_compute; reflexivity).
  assert (Hhi : forall x,
             (N.eqb (Base64Text.group 2 (N.shiftl (Byte.to_N x) 16)) 0
              && N.eqb (Base64Text.group 3 (N.shiftl (Byte.to_N x) 16)) 0)%bool
             = true)
    by (apply for_all_bytes; vm_compute; reflexivity).
  specialize (Hmid b). specialize (Hlo c). specialize (Hhi a).
  apply andb_prop in Hmid, Hlo, Hhi.
  destruct Hmid as [M0 M3], Hlo as [L0 L1], Hhi as [H2 H3].
  apply N.eqb_eq in M0, M3, L0, L1, H2, H3.
  fold hi in H2, H3. fold mid in M0, M3. fold lo in L0, L1.
  rewrite M0, M3, L0, L1, H2, H3, ?N.lor_0_r, ?N.lor_0_l.
  auto.
Qed.

Lemma octets_of_pack a b c :
  let n := Base64.pack a b c in
  Base64Text.octet0 (Base64Text.group 0 n) (Base64Text.group 1 n)
  = Byte.to_N a
  /\ Base64Text.octet1 (Base64Text.group 1 n) (Base64Text.group 2 n)
     = Byte.to_N b
  /\ Base64Text.octet2 (Base64Text.group 2 n) (Base64Text.group 3 n)
     = Byte.to_N c.
Proof.
  intros n. subst n.
  destruct (groups_of_pack a b c) as (-> & -> & -> & ->).
  pose (hi x := N.shiftl (Byte.to_N x) 16).
  pose (mid x := N.shiftl (Byte.to_N x) 8).
  fold (hi a) (mid b).
  assert (H0 : forall x y,
             N.eqb (Base64Text.octet0
                      (Base64Text.group 0 (hi x))
                      (N.lor (Base64Text.group 1 (hi x))
                             (Base64Text.group 1 (mid y))))
                   (Byte.to_N x) = true)
    by (apply for_all_byte_pairs; vm_compute; reflexivity).
  assert (H1a : forall x y,
             N.eqb (N.land (N.lor (Base64Text.group 1 (hi x))
                                  (Base64Text.group 1 (mid y))) 15)
                   (N.land (Base64Text.group 1 (mid y)) 15) = true)
    by (apply for_all_byte_pairs; vm_compute; reflexivity).
  assert (H1b : forall x y,
             N.eqb (N.lor (N.shiftl (N.land (Base64Text.group 1 (mid x)) 15) 4)
                          (N.shiftr (N.lor (Base64Text.group 2 (mid x))
                                           (Base64Text.group 2 (Byte.to_N y)))
                                    2))
                   (Byte.to_N x) = true)
    by (apply for_all_byte_pairs; vm_compute; reflexivity).
  assert (H2 : forall x y,
             N.eqb (Base64Text.octet2
                      (N.lor (Base64Text.group 2 (mid x))
                             (Base64Text.group 2 (Byte.to_N y)))
                      (Base64Text.group 3 (Byte.to_N y)))
                   (Byte.to_N y) = true)
    by (apply for_all_byte_pairs; vm_compute; reflexivity).
  repeat split.
  - apply N.eqb_eq, H0.
  - unfold Base64Text.octet1.
    rewrite (proj1 (N.eqb_eq _ _) (H1a a b)).
    apply N.eqb_eq, H1b.
  - apply N.eqb_eq, H2.
Qed.

Lemma byte_of_to_N (b : byte) : Base64Text.byte_of (Byte.to_N b) = b.
Proof. unfold Base64Text.byte_of. rewrite Byte.of_to_N. reflexivity. Qed.

Lemma index_sextet_group k n :
  (k <= 3)%N ->
  Base64Text.index (Base64.sextet (N.shiftr n (18 - 6 * k)))
  = Some (Base64Text.group k n).
Proof. intros _. apply (proj1 (sextet_spec _)). Qed.

Lemma decode_encode (bs : list byte) :
  Base64Text.decode (Base64.encode bs) = Some bs.
Proof.
  assert (H : forall k (l : list byte), List.length l < k ->
            Base64Text.decode (Base64.encode l) = Some l).
  { induction k as [|k IH]; intros l Hl; [lia|].
    destruct l as [|a [|b [|c rest]]]; [reflexivity| | |].
    - cbn [Base64.encode Base64Text.decode].
      rewrite (index_sextet_group 0), (index_sextet_group 1) by lia.
      cbn [Base64Text.index Base64Text.index_in Ascii.eqb Bool.eqb andb].
      destruct (octets_of_pack a x00 x00) as (-> & _ & _).
      rewrite byte_of_to_N. reflexivity.
    - cbn [Base64.encode Base64Text.decode].
      rewrite (index_sextet_group 0), (index_sextet_group 1),
        (index_sextet_group 2) by lia.
      cbn [Base64Text.index Base64Text.index_in Ascii.eqb Bool.eqb andb].
      destruct (octets_of_pack a b x00) as (-> & -> & _).
      rewrite !byte_of_to_N. reflexivity.
    - cbn [Base64.encode Base64Text.decode].
      change (Base64.sextet (Base64.pack a b c))
        with (Base64.sextet (N.shiftr (Base64.pack a b c) (18 - 6 * 3))).
      rewrite (index_sextet_group 0), (index_sextet_group 1),
        (index_sextet_group 2), (index_sextet_group 3) by lia.
      rewrite IH by (simpl in Hl; lia).
      destruct (octets_of_pack a b c) as (-> & -> & ->).
      rewrite !byte_of_to_N. reflexivity. }
  apply (H (S (List.length bs))). lia.
Qed.

(** X14.  Base64 encoding loses nothing: two contents get the same
    [content] text only if they are the same bytes, and a standard decoder
    gives the bytes back. *)
Theorem base64_content_is_lossless (bs bs' : list byte) :
  Base64Text.decode (Base64.encode bs) = Some bs
  /\ (Base64.encode bs = Base64.encode bs' -> bs = bs').
Proof.
  split; [apply decode_encode|].
  intros Heq. pose proof (decode_encode bs) as H.
  rewrite Heq, decode_encode in H. congruence.
Qed.

(** X15.  The [content] text of an n-byte file has 4 * ceil(n / 3)
    characters, all of them letters, digits, [+], [/] or the padding [=]. *)
Theorem base64_content_shape (bs : list byte) :
  String.length (Base64.encode bs) = 4 * ((List.length bs + 2) / 3)
  /\ forallb Base64Text.is_base64_char
       (list_ascii_of_string (Base64.encode bs)) = true.
Proof.
  split; [apply base64_length|].
  assert (H : forall k (l : list byte), List.length l < k ->
            forallb Base64Text.is_base64_char
              (list_ascii_of_string (Base64.encode l)) = true).
  { induction k as [|k IH]; intros l Hl; [lia|].
    destruct l as [|a [|b [|c rest]]]; [reflexivity| | |];
      cbn [Base64.encode list_ascii_of_string forallb];
      rewrite ?(proj2 (sextet_spec _)); try reflexivity.
    rewrite IH by (simpl in Hl; lia). reflexivity. }
  apply (H (S (List.length bs))). lia.
Qed.

(** ** The factory *)

(** X22.  An adapter fresh from the factory is the SendGrid e-mail adapter
    with attachment support and no backend, so every [send] on it is
    refused; once a backend is injected, the renderer and the configuration
    given to the factory are the ones every outbound request is built
    from. *)
Theorem factory_adapter_lifecycle sgMail renderer enqueue cfg be n ctx :
  key (create renderer enqueue cfg) = Some "sendgrid"
  /\ notificationType (create renderer enqueue cfg) = "EMAIL"
  /\ enqueueNotifications (create renderer enqueue cfg) = enqueue
  /\ supportsAttachments (create renderer enqueue cfg) = true
  /\ send sgMail (create renderer enqueue cfg) n ctx
     = ([], Rejected "Backend not injected")
  /\ forall m,
       In m (mail_calls
               (trace (send sgMail
                         (injectBackend (create renderer enqueue cfg) be)
                         n ctx))) ->
       md_from m = sender cfg
       /\ outcome (getRecipientEmail be n) = Fulfilled (md_to m)
       /\ exists tpl,
            render renderer n ctx = Fulfilled tpl
            /\ md_subject m = subject tpl
            /\ md_html m = body tpl.
Proof.
  repeat (split; [reflexivity|]).
  set (this := injectBackend (create renderer enqueue cfg) be).
  assert (Hthis : backend this = Some be
                  /\ templateRenderer this = renderer
                  /\ config this = cfg) by (repeat split).
  destruct Hthis as (Hbe & Hrenderer & Hcfg).
  clearbody this.
  run_cases sgMail this n ctx; intros m Hm; cbn in Hm; try contradiction.
  all: destruct Hm as [<- | []].
  all: rewrite Hbe in Hb; injection Hb as <-.
  all: rewrite Hrenderer in Hr; rewrite Hg; cbn; rewrite Hcfg.
  all: repeat split; exists template; auto.
Qed.

(** ** The id check is a truthiness test *)

(** X23.  An id that is the empty string counts as missing: with a backend
    injected and the template rendered, [send] rejects the notification with
    "Notification ID is required" and goes no further, making no recipient
    lookup, no file read and no mail call. *)
Theorem empty_id_counts_as_missing sgMail this n ctx be tpl :
  backend this = Some be ->
  render (templateRenderer this) n ctx = Fulfilled tpl ->
  id n = IdString "" ->
  send sgMail this n ctx
  = ([RenderCall n ctx], Rejected "Notification ID is required").
Proof.
  intros Hbe Hrender Hid.
  rewrite (send_falsy_id sgMail this n ctx be Hbe) by (rewrite Hid; reflexivity).
  rewrite Hrender. reflexivity.
Qed.

Lemma empty_id_counts_as_missing_witness :
  send mockSend adapter (with_id (IdString "") mockOneOffNotification) context
  = ([RenderCall (with_id (IdString "") mockOneOffNotification) context],
     Rejected "Notification ID is required").
Proof.
  apply (empty_id_counts_as_missing mockSend adapter
           (with_id (IdString "") mockOneOffNotification) context
           mockBackend renderedTemplate); reflexivity.
Defined.
